(** * VMB test generation for the BCH virtual machine

    A shallow embedding of [src/lib/vmb-tests/bch-vmb-test-utils.ts] (the test
    plan table, the test-definition expander and the partitioner) and of the
    generator script that writes the partitioned test files.

    Conventions of the embedding:
    - a JavaScript [number] that holds an index or a length is a [Z];
    - a [Uint8Array] is a [list byte];
    - an optional tuple slot or an optional argument is an [option];
    - a thrown exception is the [Throw] case of [Completion];
    - the static table [supportedTestSetOverridesBCH] is a finite map of the
      properties written in the object literal, and a property read on it
      also sees what every object inherits from [Object.prototype];
    - the object filled by the partitioner is an insertion-ordered list of
      properties, which is the order [Object.entries] enumerates;
    - what is imported from other modules (compiler, encoders, hash, bech32,
      [resolve], [JSON.stringify]) is a field of the classes [LibauthTypes],
      [LibauthImports] and [NodeImports];
    - the file system is a state the script threads through its calls of
      [writeFileSync], each of which returns or throws in the state it is
      made in. *)

From Stdlib Require Import ZArith Lia.
From Stdlib.Strings Require Import Byte.
From stdpp Require Import base option list strings gmap fin_maps.

Local Open Scope string_scope.
Local Open Scope list_scope.

(** ** Test set identifiers *)

(** [vmVersionsBCH]: the VM versions for which tests are generated. *)
Inductive VmVersionBCH : Set :=
| v2021
| v2022
| chip_cashtokens
| chip_limits
| chip_loops
| chip_minimalbool
| chip_p2sh32
| chip_strict_checkmultisig
| chip_zce.

Inductive TestSetType : Set := invalid | nonstandard | standard.

(** [TestSetIdBCH] is the template type [`${VmVersionBCH}_${TestSetType}`]. *)
Record TestSetIdBCH : Set := TestSetId {
  setVersion : VmVersionBCH;
  setType : TestSetType
}.

Definition VmVersionBCH_str (v : VmVersionBCH) : string :=
  match v with
  | v2021 => "2021"
  | v2022 => "2022"
  | chip_cashtokens => "chip_cashtokens"
  | chip_limits => "chip_limits"
  | chip_loops => "chip_loops"
  | chip_minimalbool => "chip_minimalbool"
  | chip_p2sh32 => "chip_p2sh32"
  | chip_strict_checkmultisig => "chip_strict_checkmultisig"
  | chip_zce => "chip_zce"
  end.

Definition TestSetType_str (t : TestSetType) : string :=
  match t with
  | invalid => "invalid"
  | nonstandard => "nonstandard"
  | standard => "standard"
  end.

(** The string a [TestSetIdBCH] is at run time. *)
Definition TestSetIdBCH_str (s : TestSetIdBCH) : string :=
  VmVersionBCH_str (setVersion s) +:+ "_" +:+ TestSetType_str (setType s).

#[global] Instance VmVersionBCH_eq_dec : EqDecision VmVersionBCH.
Proof. solve_decision. Defined.
#[global] Instance TestSetType_eq_dec : EqDecision TestSetType.
Proof. solve_decision. Defined.
#[global] Instance TestSetIdBCH_eq_dec : EqDecision TestSetIdBCH.
Proof. solve_decision. Defined.

(** ** Test plans *)

Inductive TestMode : Set := nonP2SH | P2SH20 | P2SH32.

Definition TestMode_str (m : TestMode) : string :=
  match m with
  | nonP2SH => "nonP2SH"
  | P2SH20 => "P2SH20"
  | P2SH32 => "P2SH32"
  end.

#[global] Instance TestMode_eq_dec : EqDecision TestMode.
Proof. solve_decision. Defined.

Record TestPlanItem : Set := PlanItem {
  mode : TestMode;
  sets : list TestSetIdBCH
}.

Abbreviation TestPlan := (list TestPlanItem).

Module SetIds.
Definition s2021_invalid := TestSetId v2021 invalid.
Definition s2021_nonstandard := TestSetId v2021 nonstandard.
Definition s2021_standard := TestSetId v2021 standard.
Definition s2022_invalid := TestSetId v2022 invalid.
Definition s2022_nonstandard := TestSetId v2022 nonstandard.
Definition s2022_standard := TestSetId v2022 standard.
End SetIds.
Import SetIds.

(** The properties of the object literal [supportedTestSetOverridesBCH], in
    source order. *)
Definition supportedTestSetOverridesBCH_entries : list (string * TestPlan) :=
  [ (EmptyString,
     [ PlanItem nonP2SH [s2021_nonstandard; s2022_nonstandard];
       PlanItem P2SH20 [s2021_standard; s2022_standard] ]);
    ("2021_invalid",
     [ PlanItem nonP2SH [s2021_invalid; s2022_nonstandard];
       PlanItem P2SH20 [s2021_invalid; s2022_standard] ]);
    ("2021_invalid,2022_nonstandard",
     [ PlanItem nonP2SH [s2021_invalid; s2022_nonstandard];
       PlanItem P2SH20 [s2021_invalid; s2022_nonstandard] ]);
    ("2021_invalid,2022_nonstandard,p2sh_ignore",
     [ PlanItem nonP2SH [s2021_invalid; s2022_nonstandard] ]);
    ("2021_invalid,nonP2sh20_invalid",
     [ PlanItem nonP2SH [s2021_invalid; s2022_invalid];
       PlanItem P2SH20 [s2021_invalid; s2022_standard] ]);
    ("2021_invalid,nonP2sh_invalid",
     [ PlanItem nonP2SH [s2021_invalid; s2022_invalid];
       PlanItem P2SH20 [s2021_invalid; s2022_standard] ]);
    ("2021_invalid,p2sh_ignore",
     [ PlanItem nonP2SH [s2021_invalid; s2022_nonstandard] ]);
    ("2021_invalid,p2sh_invalid",
     [ PlanItem nonP2SH [s2021_invalid; s2022_nonstandard];
       PlanItem P2SH20 [s2021_invalid; s2022_invalid] ]);
    ("invalid",
     [ PlanItem nonP2SH [s2021_invalid; s2022_invalid];
       PlanItem P2SH20 [s2021_invalid; s2022_invalid] ]);
    ("invalid,2022_nonP2sh_nonstandard",
     [ PlanItem nonP2SH [s2021_invalid; s2022_nonstandard];
       PlanItem P2SH20 [s2021_invalid; s2022_invalid] ]);
    ("invalid,2022_p2sh_standard",
     [ PlanItem nonP2SH [s2021_invalid; s2022_invalid];
       PlanItem P2SH20 [s2021_invalid; s2022_standard] ]);
    ("invalid,nonP2sh_nonstandard",
     [ PlanItem nonP2SH [s2021_nonstandard; s2022_nonstandard];
       PlanItem P2SH20 [s2021_invalid; s2022_invalid] ]);
    ("invalid,p2sh_ignore",
     [ PlanItem nonP2SH [s2021_invalid; s2022_invalid] ]);
    ("nonstandard",
     [ PlanItem nonP2SH [s2021_nonstandard; s2022_nonstandard];
       PlanItem P2SH20 [s2021_nonstandard; s2022_nonstandard] ]);
    ("nonstandard,p2sh_invalid",
     [ PlanItem nonP2SH [s2021_nonstandard; s2022_nonstandard];
       PlanItem P2SH20 [s2021_invalid; s2022_invalid] ]) ].

Definition supportedTestSetOverridesBCH : gmap string TestPlan :=
  list_to_map supportedTestSetOverridesBCH_entries.

(** The label lists of the type [TestSetOverrideListBCH], in source order. *)
Definition TestSetOverrideListBCH : list (list string) :=
  [ ["2021_invalid"; "2022_nonstandard"; "p2sh_ignore"];
    ["2021_invalid"; "2022_nonstandard"];
    ["2021_invalid"; "nonP2sh_invalid"];
    ["2021_invalid"; "nonP2sh20_invalid"];
    ["2021_invalid"; "p2sh_ignore"];
    ["2021_invalid"; "p2sh_invalid"];
    ["2021_invalid"];
    ["invalid"; "2022_nonP2sh_nonstandard"];
    ["invalid"; "2022_p2sh_standard"];
    ["invalid"; "nonP2sh_nonstandard"];
    ["invalid"; "p2sh_ignore"];
    ["invalid"];
    ["nonstandard"; "p2sh_invalid"];
    ["nonstandard"];
    [] ].

(** [Array.prototype.join] on an array of strings. *)
Definition join (sep : string) (l : list string) : string := String.concat sep l.

Definition defaultShortIdLength : Z := 5.

(** What a property read [object[key]] on an object literal yields: the
    value of the object's own property, or the value inherited under that
    name from [Object.prototype] (a function, or the prototype itself for
    [__proto__]), or [undefined]. *)
Inductive PropertyRead (V : Type) : Type :=
| OwnProperty (value : V)
| InheritedProperty (name : string)
| NoProperty.
Arguments OwnProperty {V} value.
Arguments InheritedProperty {V} name.
Arguments NoProperty {V}.

(** The names of the properties of [Object.prototype] (ECMAScript, with its
    annex B), which every object literal inherits. *)
Definition Object_prototype_properties : list string :=
  [ "constructor"; "__defineGetter__"; "__defineSetter__"; "hasOwnProperty";
    "__lookupGetter__"; "__lookupSetter__"; "isPrototypeOf";
    "propertyIsEnumerable"; "toString"; "valueOf"; "__proto__";
    "toLocaleString" ].

(** The read [object[key]] on an object literal with own properties [o]. *)
Definition readProperty {V : Type} (o : gmap string V) (key : string)
    : PropertyRead V :=
  match o !! key with
  | Some value => OwnProperty value
  | None =>
      if decide (key ∈ Object_prototype_properties)
      then InheritedProperty key
      else NoProperty
  end.

(** [planTestsBCH]: the non-null assertion is erased at run time, so the
    function returns whatever the read yields. *)
Definition planTestsBCH (labels : option (list string))
    : PropertyRead TestPlan :=
  readProperty supportedTestSetOverridesBCH (join "," (default [] labels)).

#[global] Instance byte_eq_decision : EqDecision byte := Byte.byte_eq_dec.

(** ** Completions: a value, or a thrown exception *)

Inductive Thrown : Set :=
| TypeError
| Error (message : string).

Inductive Completion (A : Type) : Type :=
| Normal (a : A)
| Throw (e : Thrown).
Arguments Normal {A} a.
Arguments Throw {A} e.

#[global] Instance Completion_ret : MRet Completion := fun A a => Normal a.
#[global] Instance Completion_bind : MBind Completion := fun A B f c =>
  match c with
  | Normal a => f a
  | Throw e => Throw e
  end.

(** ** Strings *)

(** [String.prototype.slice(start, end)] for integer arguments: a negative
    index counts from the end of the string, and both are clamped to the
    string. *)
Definition String_slice (s : string) (start end_ : Z) : string :=
  let len := Z.of_nat (String.length s) in
  let clamp i := if (i <? 0)%Z then Z.max (len + i) 0 else Z.min i len in
  let from := clamp start in
  let to := clamp end_ in
  String.substring (Z.to_nat from) (Z.to_nat (Z.max (to - from) 0)) s.

(** [String.prototype.includes(sub)]. *)
Fixpoint String_includes (s sub : string) : bool :=
  String.prefix sub s ||
  match s with
  | EmptyString => false
  | String _ s' => String_includes s' sub
  end.

(** Modelled from the spec: [flattenBinArray] of [format/format.js], which is
    not among the sources at hand, joins the byte arrays of its argument, in
    order, into one array; the short identifier hashes "the encoded
    transaction and source outputs" through it. *)
Definition flattenBinArray (a : list (list byte)) : list byte := concat a.

(** ** Objects used as dictionaries

    Properties in insertion order; assigning to an existing property keeps
    its place, assigning to a new one appends it. *)
Section JsObject.
Context {K V : Type} `{EqDecision K}.

Fixpoint obj_get (o : list (K * V)) (k : K) : option V :=
  match o with
  | [] => None
  | (k', v) :: o' => if decide (k = k') then Some v else obj_get o' k
  end.

Fixpoint obj_set (o : list (K * V)) (k : K) (v : V) : list (K * V) :=
  match o with
  | [] => [(k, v)]
  | (k', v') :: o' =>
      if decide (k = k') then (k, v) :: o' else (k', v') :: obj_set o' k v
  end.

Definition Object_entries (o : list (K * V)) : list (K * V) := o.
End JsObject.

(** ** Test vectors *)

(** The tuple [VmbTestMasterBCH]; the optional last slot is an [option]. *)
Record VmbTestMasterBCH : Set := MasterTest {
  shortId : string;
  testDescription : string;
  unlockingScriptAsm : string;
  redeemOrLockingScriptAsm : string;
  testTransactionHex : string;
  sourceOutputsHex : string;
  testSets : list TestSetIdBCH;
  inputIndex : option Z
}.

(** The tuple [VmbTest]: a master tuple without [testSets]. *)
Record VmbTest : Set := MkVmbTest {
  test_shortId : string;
  test_testDescription : string;
  test_unlockingScriptAsm : string;
  test_redeemOrLockingScriptAsm : string;
  test_testTransactionHex : string;
  test_sourceOutputsHex : string;
  test_inputIndex : option Z
}.

(** The values handed to [JSON.stringify]. *)
#[warnings="-register-all"] Inductive Json : Set :=
| JString (s : string)
| JNumber (n : Z)
| JArray (l : list Json).

(** The arrays the two tuple types are at run time. *)
Definition VmbTestMasterBCH_tuple (t : VmbTestMasterBCH) : list Json :=
  [ JString (shortId t);
    JString (testDescription t);
    JString (unlockingScriptAsm t);
    JString (redeemOrLockingScriptAsm t);
    JString (testTransactionHex t);
    JString (sourceOutputsHex t);
    JArray (JString <$> (TestSetIdBCH_str <$> testSets t)) ]
  ++ match inputIndex t with
     | None => []
     | Some i => [JNumber i]
     end.

Definition VmbTest_tuple (t : VmbTest) : list Json :=
  [ JString (test_shortId t);
    JString (test_testDescription t);
    JString (test_unlockingScriptAsm t);
    JString (test_redeemOrLockingScriptAsm t);
    JString (test_testTransactionHex t);
    JString (test_sourceOutputsHex t) ]
  ++ match test_inputIndex t with
     | None => []
     | Some i => [JNumber i]
     end.

(** ** The partitioner *)

(** The tuple [withoutSets] built in the reducer. *)
Definition withoutSets (testCase : VmbTestMasterBCH) : VmbTest :=
  {| test_shortId := shortId testCase;
     test_testDescription := testDescription testCase;
     test_unlockingScriptAsm := unlockingScriptAsm testCase;
     test_redeemOrLockingScriptAsm := redeemOrLockingScriptAsm testCase;
     test_testTransactionHex := testTransactionHex testCase;
     test_sourceOutputsHex := sourceOutputsHex testCase;
     test_inputIndex :=
       match inputIndex testCase with
       | None => None
       | Some i => Some i
       end |}.

(** The body of [testSets.forEach]: one assignment to the accumulator. *)
Definition appendToSet (test : VmbTest)
    (accumulatedTestSets : list (TestSetIdBCH * list VmbTest))
    (testSet : TestSetIdBCH) : list (TestSetIdBCH * list VmbTest) :=
  obj_set accumulatedTestSets testSet
    (default [] (obj_get accumulatedTestSets testSet) ++ [test]).

(** The reducer of [vmbTestPartitionMasterTestList]. *)
Definition partitionStep
    (accumulatedTestSets : list (TestSetIdBCH * list VmbTest))
    (testCase : VmbTestMasterBCH) : list (TestSetIdBCH * list VmbTest) :=
  foldl (appendToSet (withoutSets testCase)) accumulatedTestSets
    (testSets testCase).

Definition vmbTestPartitionMasterTestList
    (masterTestList : list VmbTestMasterBCH)
    : list (TestSetIdBCH * list VmbTest) :=
  foldl partitionStep [] masterTestList.

(** ** The authentication template of a test definition *)

(** The types of the library that the expander only passes along. *)
Class LibauthTypes : Type := {
  (** the properties of a template scenario other than [extends] *)
  ScenarioFields : Type;
  (** no such property: the scenario [{}] *)
  noScenarioFields : ScenarioFields;
  Transaction : Type;
  Output : Type;
  CompilerConfiguration : Type;
  Compiler : Type
}.

(** [AuthenticationTemplateScenario]. The optional property [extends] is
    [None] when the object has no such property, [Some None] when it has the
    property with the value [undefined], and [Some (Some id)] when it names
    a scenario. *)
Record AuthenticationTemplateScenario `{LibauthTypes} : Type := TemplateScenario {
  extends : option (option string);
  scenarioFields : ScenarioFields
}.

(** A script of a template, with the properties this module writes. *)
Record AuthenticationTemplateScript : Set := TemplateScript {
  lockingType : option string;
  script : string;
  unlocks : option string
}.

Record AuthenticationTemplateVariable : Set := TemplateVariable {
  type : string
}.

Record AuthenticationTemplateEntity : Type := TemplateEntity {
  variables : gmap string AuthenticationTemplateVariable
}.

Record AuthenticationTemplate `{LibauthTypes} : Type := Template {
  entities : gmap string AuthenticationTemplateEntity;
  scenarios : gmap string AuthenticationTemplateScenario;
  scripts : gmap string AuthenticationTemplateScript;
  supported : list string;
  version : Z
}.

(** The tuple [VmbTestDefinition]. *)
Record VmbTestDefinition `{LibauthTypes} : Type := TestDefinition {
  def_unlockingScript : string;
  def_redeemOrLockingScript : string;
  def_testDescription : string;
  def_testSetOverrideLabels : option (list string);
  def_scenario : option AuthenticationTemplateScenario;
  def_additionalScripts : option (gmap string AuthenticationTemplateScript)
}.

(** The result of scenario generation, as far as it is read here. *)
Record ScenarioProgram `{LibauthTypes} : Type := Program {
  program_inputIndex : Z;
  sourceOutputs : list Output;
  transaction : Transaction
}.

Record Scenario `{LibauthTypes} : Type := MkScenario {
  program : ScenarioProgram
}.

(** What [compiler.generateScenario] returns: an error string, or an object
    whose [scenario] is an error string or a scenario. *)
Inductive ScenarioGenerationResult `{LibauthTypes} : Type :=
| GenerationError (message : string)
| GenerationResult (scenario : string + Scenario).

Record GenerateScenarioParameters : Set := GenerateScenario {
  debug : bool;
  scenarioId : string;
  unlockingScriptId : string
}.

Record RegroupBitsParameters : Set := RegroupBits {
  bin : list byte;
  resultWordLength : Z;
  sourceWordLength : Z
}.

(** The functions imported from the rest of the library. *)
Class LibauthImports `{LibauthTypes} : Type := {
  slot1Scenario : AuthenticationTemplateScenario;
  authenticationTemplateToCompilerConfiguration :
    AuthenticationTemplate -> CompilerConfiguration;
  createCompilerBCH : CompilerConfiguration -> Compiler;
  generateScenario :
    Compiler -> GenerateScenarioParameters -> ScenarioGenerationResult;
  encodeTransaction : Transaction -> list byte;
  encodeTransactionOutputs : list Output -> list byte;
  sha256_hash : list byte -> list byte;
  (** the result of [regroupBits], read as [number[]] *)
  regroupBits : RegroupBitsParameters -> list Z;
  encodeBech32 : list Z -> string;
  binToHex : list byte -> string
}.

Section Expander.
Context `{LibauthImports}.

(** The object [{ extends: 'vmb_default', ...scenarioOverride }]: an own
    property [extends] of the override, whatever its value, replaces the
    one written first. *)
Definition scenarioDefinition
    (scenarioOverride : option AuthenticationTemplateScenario)
    : AuthenticationTemplateScenario :=
  match scenarioOverride with
  | None =>
      {| extends := Some (Some "vmb_default");
         scenarioFields := noScenarioFields |}
  | Some o =>
      {| extends :=
           match extends o with
           | Some value => Some value
           | None => Some (Some "vmb_default")
           end;
         scenarioFields := scenarioFields o |}
  end.

(** The properties written after [...additionalScripts] in the [scripts]
    object literal, in source order. *)
Definition builtInScripts (unlockingScript redeemOrLockingScript : string)
    : list (string * AuthenticationTemplateScript) :=
  [ ("lockEmptyP2sh20", TemplateScript (Some "p2sh20") EmptyString None);
    ("lockP2pkh",
     TemplateScript (Some "standard")
       "OP_DUP OP_HASH160 <$(<key1.public_key> OP_HASH160)> OP_EQUALVERIFY OP_CHECKSIG"
       None);
    ("lockP2sh20", TemplateScript (Some "p2sh20") redeemOrLockingScript None);
    ("lockStandard", TemplateScript (Some "standard") redeemOrLockingScript None);
    ("unlockEmptyP2sh20", TemplateScript None "<1>" (Some "lockEmptyP2sh20"));
    ("unlockP2pkh",
     TemplateScript None
       "<key1.schnorr_signature.corresponding_output_single_input> <key1.public_key>"
       (Some "lockP2pkh"));
    ("unlockP2sh20", TemplateScript None unlockingScript (Some "lockP2sh20"));
    ("unlockStandard", TemplateScript None unlockingScript (Some "lockStandard"));
    ("vmbTestNullData",
     TemplateScript (Some "standard")
       ("OP_RETURN <" +:+ String (Ascii.ascii_of_nat 34) "vmb_test"
          +:+ String (Ascii.ascii_of_nat 34) ">")
       None) ].

(** An object literal [{ ...base, k1: v1, k2: v2, ... }]: the properties of
    [base], then each written property assigned in turn. *)
Definition spreadThenAssign {V : Type} (base : option (gmap string V))
    (props : list (string * V)) : gmap string V :=
  foldl (fun o kv => <[kv.1 := kv.2]> o) (default ∅ base) props.

(** The template handed to [authenticationTemplateToCompilerConfiguration]. *)
Definition vmbTestTemplate (testDefinition : VmbTestDefinition)
    : AuthenticationTemplate :=
  {| entities :=
       {[ "tester" :=
            TemplateEntity {[ "key1" := TemplateVariable "HdKey" ]} ]};
     scenarios :=
       spreadThenAssign None
         [ ("test", scenarioDefinition (def_scenario testDefinition));
           ("vmb_default", slot1Scenario) ];
     scripts :=
       spreadThenAssign (def_additionalScripts testDefinition)
         (builtInScripts (def_unlockingScript testDefinition)
            (def_redeemOrLockingScript testDefinition));
     supported := ["BCH_2022_05"];
     version := 0 |}.

(** The lookup [{ P2SH20: ..., P2SH32: ..., nonP2SH: ... }[planItem.mode]]. *)
Definition unlockingScriptIdOfMode (m : TestMode) : string :=
  match m with
  | P2SH20 => "unlockP2sh20"
  | P2SH32 => "unlockP2sh32"
  | nonP2SH => "unlockStandard"
  end.

(** The argument of [compiler.generateScenario] for a plan item. *)
Definition scenarioRequest (planItem : TestPlanItem) : GenerateScenarioParameters :=
  {| debug := true;
     scenarioId := "test";
     unlockingScriptId := unlockingScriptIdOfMode (mode planItem) |}.

(** The compiler created for a test definition. *)
Definition testCompiler (testDefinition : VmbTestDefinition) : Compiler :=
  createCompilerBCH
    (authenticationTemplateToCompilerConfiguration
       (vmbTestTemplate testDefinition)).

Definition errorWhileGenerating (description reason : string) : Thrown :=
  Error ("Error while generating " +:+ String (Ascii.ascii_of_nat 34) description
           +:+ String (Ascii.ascii_of_nat 34) " - " +:+ reason).

(** The callback of [testGenerationPlan.map]. *)
Definition generateTest (compiler : Compiler)
    (groupName testDescription unlockingScript redeemOrLockingScript : string)
    (shortIdLength : Z) (planItem : TestPlanItem)
    : Completion VmbTestMasterBCH :=
  let description :=
    groupName +:+ ": " +:+ testDescription +:+ " ("
      +:+ TestMode_str (mode planItem) +:+ ")" in
  let result := generateScenario compiler (scenarioRequest planItem) in
  match result with
  | GenerationError message => Throw (errorWhileGenerating description message)
  | GenerationResult (inl message) =>
      Throw (errorWhileGenerating description message)
  | GenerationResult (inr scenario) =>
      let encodedTx := encodeTransaction (transaction (program scenario)) in
      let encodedSourceOutputs :=
        encodeTransactionOutputs (sourceOutputs (program scenario)) in
      let shortId :=
        String_slice
          (encodeBech32
             (regroupBits
                {| bin :=
                     sha256_hash
                       (flattenBinArray [encodedTx; encodedSourceOutputs]);
                   resultWordLength := 5;
                   sourceWordLength := 8 |}))
          0 shortIdLength in
      Normal
        {| shortId := shortId;
           testDescription := description;
           unlockingScriptAsm := unlockingScript;
           redeemOrLockingScriptAsm := redeemOrLockingScript;
           testTransactionHex := binToHex encodedTx;
           sourceOutputsHex := binToHex encodedSourceOutputs;
           testSets := sets planItem;
           inputIndex :=
             if decide (program_inputIndex (program scenario) = 0%Z)
             then None
             else Some (program_inputIndex (program scenario)) |}
  end.

(** [vmbTestDefinitionToVmbTests]; calling [map] on [undefined], or on an
    inherited value (none has a [map] method), is a [TypeError]. *)
Definition vmbTestDefinitionToVmbTests (testDefinition : VmbTestDefinition)
    (groupName : option string) (shortIdLength : option Z)
    : Completion (list VmbTestMasterBCH) :=
  let groupName := default EmptyString groupName in
  let shortIdLength := default defaultShortIdLength shortIdLength in
  let testGenerationPlan :=
    planTestsBCH (def_testSetOverrideLabels testDefinition) in
  let compiler := testCompiler testDefinition in
  match testGenerationPlan with
  | OwnProperty testGenerationPlan =>
      mapM
        (generateTest compiler groupName (def_testDescription testDefinition)
           (def_unlockingScript testDefinition)
           (def_redeemOrLockingScript testDefinition) shortIdLength)
        testGenerationPlan
  | InheritedProperty _ => Throw TypeError
  | NoProperty => Throw TypeError
  end.

(** [vmbTestGroupToVmbTests], on the pair [[groupDescription, tests]]. *)
Definition vmbTestGroupToVmbTests
    (testGroup : string * list VmbTestDefinition)
    : Completion (list (list VmbTestMasterBCH)) :=
  mapM
    (fun testDefinition =>
       vmbTestDefinitionToVmbTests testDefinition (Some testGroup.1) None)
    testGroup.2.

End Expander.

(** ** The generator script *)

(** What the script imports from Node and from the JavaScript library, and
    the file system it runs on. *)
Class NodeImports : Type := {
  resolve : string -> string;
  JSON_stringify : Json -> string;
  (** the states of the file system *)
  FileSystem : Type;
  (** the file system when the script starts *)
  fileSystem : FileSystem;
  (** [writeFileSync(path, data, { encoding })] in a state of the file
      system: the state after the call, and whether the call returned or
      threw *)
  fs_writeFileSync :
    FileSystem -> string -> string -> string -> FileSystem * Completion unit
}.

(** What a run did: a message logged, a file written (a [writeFileSync]
    call that returned). *)
Inductive Effect : Set :=
| ConsoleLog (message : string)
| WriteFileSync (path data encoding : string).

(** A run of the script: the effects it performed, in order, and how it
    ended. *)
Record Run (A : Type) : Type := MkRun {
  effects : list Effect;
  completion : Completion A
}.
Arguments MkRun {A} effects completion.
Arguments effects {A} r.
Arguments completion {A} r.

(** A piece of the script: from a state of the file system, the state it
    leaves and its run. A piece that throws ends the script. *)
Definition Script `{NodeImports} (A : Type) : Type :=
  FileSystem -> FileSystem * Run A.

#[global] Instance Script_ret `{NodeImports} : MRet Script :=
  fun A a fs => (fs, MkRun [] (Normal a)).
#[global] Instance Script_bind `{NodeImports} : MBind Script :=
  fun A B f c fs =>
    match completion (c fs).2 with
    | Normal a =>
        ((f a (c fs).1).1,
         MkRun (effects (c fs).2 ++ effects (f a (c fs).1).2)
           (completion (f a (c fs).1).2))
    | Throw e => ((c fs).1, MkRun (effects (c fs).2) (Throw e))
    end.

Definition console_log `{NodeImports} (message : string) : Script unit :=
  fun fs => (fs, MkRun [ConsoleLog message] (Normal tt)).

Definition writeFileSync `{NodeImports} (path data encoding : string)
    : Script unit :=
  fun fs =>
    ((fs_writeFileSync fs path data encoding).1,
     match (fs_writeFileSync fs path data encoding).2 with
     | Normal _ => MkRun [WriteFileSync path data encoding] (Normal tt)
     | Throw e => MkRun [] (Throw e)
     end).

Definition throw `{NodeImports} {A : Type} (e : Thrown) : Script A :=
  fun fs => (fs, MkRun [] (Throw e)).

(** [Array.prototype.forEach] with an effectful callback. *)
Fixpoint forEach `{NodeImports} {A : Type} (f : A -> Script unit) (l : list A)
    : Script unit :=
  match l with
  | [] => mret tt
  | x :: l' => f x;; forEach f l'
  end.

Definition masterListJson (l : list VmbTestMasterBCH) : Json :=
  JArray ((fun t => JArray (VmbTestMasterBCH_tuple t)) <$> l).

Definition testSetJson (l : list VmbTest) : Json :=
  JArray ((fun t => JArray (VmbTest_tuple t)) <$> l).

(** The path the script writes a test set to. *)
Definition testSetFilepath (outputAbsolutePath testSetName : string) : string :=
  if String_includes testSetName "chip"
  then outputAbsolutePath +:+ "/CHIPs/bch_vmb_tests_" +:+ testSetName +:+ ".json"
  else outputAbsolutePath +:+ "/bch_vmb_tests_" +:+ testSetName +:+ ".json".

(** The script, on the imported [vmbTestsBch] and on [process.argv]. *)
Definition generateVmbTestsScript `{NodeImports}
    (vmbTestsBch : list (list (list VmbTestMasterBCH)))
    (argv : list string) : Script unit :=
  console_log "Generating vmb_tests...";;
  outputDir ←
    match argv !! 2%nat with
    | None => throw (Error "Script requires an output directory.")
    | Some outputDir => mret outputDir
    end;
  let outputAbsolutePath := resolve outputDir in
  let allTestCases := concat (concat vmbTestsBch) in
  console_log "Generated vmb_tests. Writing files...";;
  writeFileSync (outputAbsolutePath +:+ "/bch_vmb_tests.json")
    (JSON_stringify (masterListJson allTestCases)) "utf8";;
  let partitionedTestCases := vmbTestPartitionMasterTestList allTestCases in
  forEach
    (fun entry : TestSetIdBCH * list VmbTest =>
       let testSetName := TestSetIdBCH_str entry.1 in
       let testSet := entry.2 in
       writeFileSync (testSetFilepath outputAbsolutePath testSetName)
         (JSON_stringify (testSetJson testSet)) "utf8")
    (Object_entries partitionedTestCases);;
  console_log "vmb_test files written.".

(** The run of the script from the file system it starts on. *)
Definition generateVmbTests `{NodeImports}
    (vmbTestsBch : list (list (list VmbTestMasterBCH)))
    (argv : list string) : Run unit :=
  (generateVmbTestsScript vmbTestsBch argv fileSystem).2.

(** The files written during a run, in order: path and contents. *)
Definition filesWritten (l : list Effect) : list (string * string) :=
  omap (fun e =>
          match e with
          | WriteFileSync path data _ => Some (path, data)
          | ConsoleLog _ => None
          end) l.

(** ** Vocabulary of the statements *)

Definition defaultTestPlan : TestPlan :=
  [ PlanItem nonP2SH [s2021_nonstandard; s2022_nonstandard];
    PlanItem P2SH20 [s2021_standard; s2022_standard] ].

(** How often a set id occurs in a [testSets] array. *)
Definition occurrences (S : TestSetIdBCH) (sets : list TestSetIdBCH) : nat :=
  length (filter (λ s, s = S) sets).

(** The entries of a master list stripped of [testSets], in master order,
    each once per occurrence of [S] in its [testSets]. *)
Definition copiesInSet (S : TestSetIdBCH) (master : list VmbTestMasterBCH)
    : list VmbTest :=
  m ← master; replicate (occurrences S (testSets m)) (withoutSets m).

(** A property of the accumulator after more tests were appended to it: no
    property when there was none and nothing was appended. *)
Definition extendSet (o : option (list VmbTest)) (l : list VmbTest)
    : option (list VmbTest) :=
  match l with
  | [] => o
  | _ => Some (default [] o ++ l)
  end.

Section GeneratedVectors.
Context `{LibauthImports}.

(** What a test vector generated for a plan item from a scenario is, field
    by field. *)
Definition generatedFrom (groupName definitionDescription unlockingScript
    redeemOrLockingScript : string) (shortIdLength : Z)
    (planItem : TestPlanItem) (scenario : Scenario)
    (t : VmbTestMasterBCH) : Prop :=
  shortId t
  = String_slice
      (encodeBech32
         (regroupBits
            {| bin :=
                 sha256_hash
                   (encodeTransaction (transaction (program scenario))
                      ++ encodeTransactionOutputs
                           (sourceOutputs (program scenario)));
               resultWordLength := 5;
               sourceWordLength := 8 |}))
      0 shortIdLength
  ∧ testDescription t
    = groupName +:+ ": " +:+ definitionDescription +:+ " ("
        +:+ TestMode_str (mode planItem) +:+ ")"
  ∧ unlockingScriptAsm t = unlockingScript
  ∧ redeemOrLockingScriptAsm t = redeemOrLockingScript
  ∧ testTransactionHex t
    = binToHex (encodeTransaction (transaction (program scenario)))
  ∧ sourceOutputsHex t
    = binToHex (encodeTransactionOutputs (sourceOutputs (program scenario)))
  ∧ testSets t = sets planItem
  ∧ inputIndex t
    = if decide (program_inputIndex (program scenario) = 0%Z)
      then None
      else Some (program_inputIndex (program scenario)).

End GeneratedVectors.

(** The imports with another [generateScenario]. *)
Definition withGenerateScenario `{LibauthImports}
    (g : Compiler → GenerateScenarioParameters → ScenarioGenerationResult)
    : LibauthImports :=
  {| slot1Scenario := slot1Scenario;
     authenticationTemplateToCompilerConfiguration :=
       authenticationTemplateToCompilerConfiguration;
     createCompilerBCH := createCompilerBCH;
     generateScenario := g;
     encodeTransaction := encodeTransaction;
     encodeTransactionOutputs := encodeTransactionOutputs;
     sha256_hash := sha256_hash;
     regroupBits := regroupBits;
     encodeBech32 := encodeBech32;
     binToHex := binToHex |}.

(** The names of the scripts every test template defines. *)
Definition builtInScriptNames : list string :=
  [ "lockEmptyP2sh20"; "lockP2pkh"; "lockP2sh20"; "lockStandard";
    "unlockEmptyP2sh20"; "unlockP2pkh"; "unlockP2sh20"; "unlockStandard";
    "vmbTestNullData" ].

(** ** Vocabulary of the further properties *)

(** The [sets] of a plan item as the table writes them: a 2021 set followed
    by a 2022 set. *)
Definition wellShapedSets (l : list TestSetIdBCH) : Prop :=
  ∃ a b, l = [TestSetId v2021 a; TestSetId v2022 b].

(** A plan as the table writes them: a nonP2SH item, alone or followed by a
    P2SH20 item. *)
Definition wellShapedPlan (plan : TestPlan) : Prop :=
  (∃ sets1, plan = [PlanItem nonP2SH sets1] ∧ wellShapedSets sets1)
  ∨ (∃ sets1 sets2,
       plan = [PlanItem nonP2SH sets1; PlanItem P2SH20 sets2]
       ∧ wellShapedSets sets1 ∧ wellShapedSets sets2).

(** The elements of a list, each kept at its first occurrence. *)
Fixpoint firstOccurrences {A : Type} `{EqDecision A} (l : list A) : list A :=
  match l with
  | [] => []
  | x :: l' => x :: filter (λ y, y ≠ x) (firstOccurrences l')
  end.

(** The number of tests held by a partition, over all its sets. *)
Definition filedTests (o : list (TestSetIdBCH * list VmbTest)) : nat :=
  sum_list (length <$> o.*2).

Section MasterLists.
Context `{LibauthImports}.

(** The master list of the documentation of
    [vmbTestPartitionMasterTestList]:
    [definitions.map(vmbTestGroupToVmbTests).flat(2)]. *)
Definition masterTestListOfGroups
    (definitions : list (string * list VmbTestDefinition))
    : Completion (list VmbTestMasterBCH) :=
  tests ← mapM vmbTestGroupToVmbTests definitions;
  mret (concat (concat tests)).

(** The scenario of a plan item is generated. *)
Definition generationSucceeds (compiler : Compiler) (planItem : TestPlanItem)
    : Prop :=
  ∃ scenario,
    generateScenario compiler (scenarioRequest planItem)
    = GenerationResult (inr scenario).

(** The scenario of a plan item is refused, with a message. *)
Definition generationFails (compiler : Compiler) (planItem : TestPlanItem)
    (message : string) : Prop :=
  generateScenario compiler (scenarioRequest planItem) = GenerationError message
  ∨ generateScenario compiler (scenarioRequest planItem)
    = GenerationResult (inl message).

(** The string a short identifier is cut from: the bech32 encoding of the
    regrouped hash of the encoded transaction and source outputs. *)
Definition hashEncoding (scenario : Scenario) : string :=
  encodeBech32
    (regroupBits
       {| bin :=
            sha256_hash
              (encodeTransaction (transaction (program scenario))
                 ++ encodeTransactionOutputs (sourceOutputs (program scenario)));
          resultWordLength := 5;
          sourceWordLength := 8 |}).

(** The description of the vector of a plan item. *)
Definition descriptionOf (groupName : option string)
    (testDefinition : VmbTestDefinition) (planItem : TestPlanItem) : string :=
  default EmptyString groupName +:+ ": " +:+ def_testDescription testDefinition
    +:+ " (" +:+ TestMode_str (mode planItem) +:+ ")".

End MasterLists.

(** The set ids of the 2021 and 2022 versions. *)
Definition releasedSetIds : list TestSetIdBCH :=
  [ TestSetId v2021 invalid; TestSetId v2021 nonstandard;
    TestSetId v2021 standard; TestSetId v2022 invalid;
    TestSetId v2022 nonstandard; TestSetId v2022 standard ].

Section FileSystems.
Context `{NodeImports}.

(** The state of the file system after the files of a list were written, in
    order, from a state. *)
Definition fileSystemAfter (fs : FileSystem) (files : list (string * string))
    : FileSystem :=
  foldl (fun fs file => (fs_writeFileSync fs file.1 file.2 "utf8").1) fs files.

(** Each [writeFileSync] call of a list of files written in order, from a
    state of the file system, returns. *)
Definition writesReturn (fs : FileSystem) (files : list (string * string))
    : Prop :=
  ∀ before path data later,
    files = before ++ (path, data) :: later →
    (fs_writeFileSync (fileSystemAfter fs before) path data "utf8").2
    = Normal tt.

(** The files the script sets out to write, in order: the master file, then
    the file of each set of the partition. *)
Definition plannedFiles (outputDir : string)
    (allTestCases : list VmbTestMasterBCH) : list (string * string) :=
  (resolve outputDir +:+ "/bch_vmb_tests.json",
   JSON_stringify (masterListJson allTestCases))
  :: ((fun entry : TestSetIdBCH * list VmbTest =>
         (testSetFilepath (resolve outputDir) (TestSetIdBCH_str entry.1),
          JSON_stringify (testSetJson entry.2)))
      <$> vmbTestPartitionMasterTestList allTestCases).

End FileSystems.

(** ** A small instance of the imports

    Stand-ins on which the definitions above run: transactions and outputs
    are their own encoding, the hash is the identity, and the compiler
    answers every request, with input index 0 for [unlockStandard] and 1
    otherwise. *)
Module Sample.

Definition types : LibauthTypes :=
  {| ScenarioFields := unit;
     noScenarioFields := tt;
     Transaction := list byte;
     Output := list byte;
     CompilerConfiguration := unit;
     Compiler := unit |}.
#[local] Existing Instance types.

Definition imports : @LibauthImports types :=
  {| slot1Scenario := {| extends := None; scenarioFields := tt |};
     authenticationTemplateToCompilerConfiguration := fun _ => tt;
     createCompilerBCH := fun _ => tt;
     generateScenario := fun _ request =>
       GenerationResult
         (inr {| program :=
                   {| program_inputIndex :=
                        if String.eqb (unlockingScriptId request) "unlockStandard"
                        then 0%Z else 1%Z;
                      sourceOutputs := [[x01%byte]];
                      transaction := [x02%byte] |} |});
     encodeTransaction := fun tx => tx;
     encodeTransactionOutputs := fun outputs => concat outputs;
     sha256_hash := fun b => b;
     regroupBits := fun p => (fun b => Z.of_N (Byte.to_N b)) <$> bin p;
     encodeBech32 := fun words =>
       if decide (words = [2%Z; 1%Z]) then "qpzry9x8" else "gf2tvdw0";
     binToHex := fun b => if decide (b = [x02%byte]) then "02" else "01" |}.

(** The directory of a path: what comes before its last slash. *)
Fixpoint dirname (path : string) : string :=
  match path with
  | EmptyString => EmptyString
  | String c rest =>
      if String_includes rest "/" then String c (dirname rest) else EmptyString
  end.

(** A file system: its directories and its files with their content. *)
Record Disk : Type := MkDisk {
  disk_directories : list string;
  disk_files : list (string * string)
}.

(** Writing a file returns when the directory of its path exists, replacing
    the file of that path, and throws otherwise; it creates no directory. *)
Definition writeInDirectories (disk : Disk)
    (path data encoding : string) : Disk * Completion unit :=
  if decide (dirname path ∈ disk_directories disk)
  then (MkDisk (disk_directories disk)
          (filter (fun file : string * string => file.1 ≠ path) (disk_files disk)
           ++ [(path, data)]),
        Normal tt)
  else (disk,
        Throw (Error ("ENOENT: no such file or directory, open " +:+ path))).

(** The imports of the script on a file system with the given directories. *)
Definition nodeOn (directories : list string) : NodeImports :=
  {| resolve := fun dir => "/abs/" +:+ dir;
     JSON_stringify := fun j =>
       match j with
       | JArray l => "array"
       | _ => "scalar"
       end;
     FileSystem := Disk;
     fileSystem := MkDisk directories [];
     fs_writeFileSync := writeInDirectories |}.

(** The output directory exists, its subdirectory [CHIPs] does not. *)
Definition node : NodeImports := nodeOn ["/abs/out"].

(** The output directory does not exist. *)
Definition nodeWithoutDirectory : NodeImports := nodeOn [].

(** A master entry of a draft proposal's set. *)
Definition chipMaster : VmbTestMasterBCH :=
  {| shortId := "gf2tv";
     testDescription := "group: loop (nonP2SH)";
     unlockingScriptAsm := "<1>";
     redeemOrLockingScriptAsm := "OP_BEGIN OP_UNTIL";
     testTransactionHex := "02";
     sourceOutputsHex := "01";
     testSets := [TestSetId v2022 invalid; TestSetId chip_loops nonstandard];
     inputIndex := None |}.

Definition definition : @VmbTestDefinition types :=
  {| def_unlockingScript := "<1>";
     def_redeemOrLockingScript := "OP_DROP <1>";
     def_testDescription := "drop";
     def_testSetOverrideLabels := Some ["invalid"; "p2sh_ignore"];
     def_scenario := None;
     def_additionalScripts := None |}.

Definition master : VmbTestMasterBCH :=
  {| shortId := "qpzry";
     testDescription := "group: drop (nonP2SH)";
     unlockingScriptAsm := "<1>";
     redeemOrLockingScriptAsm := "OP_DROP <1>";
     testTransactionHex := "02";
     sourceOutputsHex := "01";
     testSets := [s2021_invalid; s2022_invalid];
     inputIndex := None |}.

Definition definition2 : @VmbTestDefinition types :=
  {| def_unlockingScript := "<2>";
     def_redeemOrLockingScript := "OP_DUP OP_EQUAL";
     def_testDescription := "dup";
     def_testSetOverrideLabels := None;
     def_scenario := None;
     def_additionalScripts := None |}.

Definition master2 : VmbTestMasterBCH :=
  {| shortId := "qpzry";
     testDescription := "other: dup (P2SH20)";
     unlockingScriptAsm := "<2>";
     redeemOrLockingScriptAsm := "OP_DUP OP_EQUAL";
     testTransactionHex := "02";
     sourceOutputsHex := "01";
     testSets := [s2021_standard; s2022_standard];
     inputIndex := Some 1%Z |}.

Definition tests2 : list VmbTestMasterBCH :=
  [ {| shortId := "qpzry";
       testDescription := "other: dup (nonP2SH)";
       unlockingScriptAsm := "<2>";
       redeemOrLockingScriptAsm := "OP_DUP OP_EQUAL";
       testTransactionHex := "02";
       sourceOutputsHex := "01";
       testSets := [s2021_nonstandard; s2022_nonstandard];
       inputIndex := None |};
    master2 ].

(** The scenario the stand-in compiler generates for a script id. *)
Definition scenarioFor (inputIndex : Z) : @Scenario types :=
  {| program :=
       {| program_inputIndex := inputIndex;
          sourceOutputs := [[x01%byte]];
          transaction := [x02%byte] |} |}.

(** A definition whose labels join to no key of the table. *)
Definition unsupportedDefinition : @VmbTestDefinition types :=
  {| def_unlockingScript := "<1>";
     def_redeemOrLockingScript := "<1>";
     def_testDescription := "one";
     def_testSetOverrideLabels := Some ["standard"];
     def_scenario := None;
     def_additionalScripts := None |}.

(** A compiler that refuses the script id [unlockP2sh32]. *)
Definition strictGenerateScenario (compiler : @Compiler types)
    (request : GenerateScenarioParameters) : @ScenarioGenerationResult types :=
  if String.eqb (unlockingScriptId request) "unlockP2sh32"
  then GenerationError "unknown unlocking script"
  else @generateScenario types imports compiler request.

(** A master entry whose [testSets] names one set twice. *)
Definition repeatedMaster : VmbTestMasterBCH :=
  {| shortId := "qpzry";
     testDescription := "group: drop (nonP2SH)";
     unlockingScriptAsm := "<1>";
     redeemOrLockingScriptAsm := "OP_DROP <1>";
     testTransactionHex := "02";
     sourceOutputsHex := "01";
     testSets := [s2021_invalid; s2021_invalid];
     inputIndex := None |}.

(** A definition with scripts of its own: one under a new name, one under
    the name of a built-in script. *)
Definition definitionWithScripts : @VmbTestDefinition types :=
  {| def_unlockingScript := "<1>";
     def_redeemOrLockingScript := "OP_DROP <1>";
     def_testDescription := "drop";
     def_testSetOverrideLabels := Some ["invalid"; "p2sh_ignore"];
     def_scenario := None;
     def_additionalScripts :=
       Some {[ "helper" := TemplateScript None "<2>" None;
               "lockStandard" := TemplateScript None "<3>" None ]} |}.

(** [definition] under another description. *)
Definition definitionRenamed : @VmbTestDefinition types :=
  {| def_unlockingScript := "<1>";
     def_redeemOrLockingScript := "OP_DROP <1>";
     def_testDescription := "drop, again";
     def_testSetOverrideLabels := Some ["invalid"; "p2sh_ignore"];
     def_scenario := None;
     def_additionalScripts := None |}.

Definition masterRenamed : VmbTestMasterBCH :=
  {| shortId := "qpzry";
     testDescription := "other: drop, again (nonP2SH)";
     unlockingScriptAsm := "<1>";
     redeemOrLockingScriptAsm := "OP_DROP <1>";
     testTransactionHex := "02";
     sourceOutputsHex := "01";
     testSets := [s2021_invalid; s2022_invalid];
     inputIndex := None |}.

End Sample.

Example planTestsBCH_nonstandard :
  planTestsBCH (Some ["nonstandard"; "p2sh_invalid"]) =
  OwnProperty [ PlanItem nonP2SH [s2021_nonstandard; s2022_nonstandard];
         PlanItem P2SH20 [s2021_invalid; s2022_invalid] ].
Proof. vm_compute. reflexivity. Qed.

Example planTestsBCH_miss : planTestsBCH (Some ["standard"]) = NoProperty.
Proof. vm_compute. reflexivity. Qed.

Example TestSetIdBCH_str_ex : TestSetIdBCH_str s2022_nonstandard = "2022_nonstandard".
Proof. reflexivity. Qed.

Example sample_expansion :
  @vmbTestDefinitionToVmbTests _ Sample.imports Sample.definition (Some "group") None
  = Normal [Sample.master].
Proof. vm_compute. reflexivity. Qed.

(** * Properties *)

(** ** The test-plan resolver *)

Lemma obj_get_list_to_map {V : Type} (l : list (string * V)) (k : string) :
  (list_to_map l : gmap string V) !! k = obj_get l k.
Proof.
  induction l as [|[k' v] l IH]; simpl.
  - apply lookup_empty.
  - rewrite lookup_insert. destruct (decide (k = k')) as [->|Hne].
    + rewrite decide_True by done. reflexivity.
    + rewrite decide_False by congruence. exact IH.
Qed.

Lemma obj_get_None_keys {K V : Type} `{EqDecision K} (o : list (K * V)) (k : K) :
  obj_get o k = None ↔ k ∉ o.*1.
Proof.
  induction o as [|[k' v] o IH]; simpl.
  - split; [intros _; apply not_elem_of_nil | done].
  - rewrite not_elem_of_cons. destruct (decide (k = k')) as [->|Hne].
    + split; [done | intros [? _]; done].
    + rewrite IH. tauto.
Qed.

Lemma obj_get_Some_elem {K V : Type} `{EqDecision K} (o : list (K * V)) k v :
  obj_get o k = Some v → (k, v) ∈ o.
Proof.
  induction o as [|[k' v'] o IH]; simpl; [done|].
  destruct (decide (k = k')) as [->|Hne].
  - intros [= ->]. apply list_elem_of_here.
  - intros Hget. apply list_elem_of_further, IH, Hget.
Qed.

Lemma obj_get_elem_NoDup {K V : Type} `{EqDecision K} (o : list (K * V)) k v :
  NoDup o.*1 → (k, v) ∈ o → obj_get o k = Some v.
Proof.
  induction o as [|[k' v'] o IH]; simpl.
  - intros _ Hin. by apply elem_of_nil in Hin.
  - rewrite NoDup_cons. intros [Hk' Hnd] Hin.
    apply elem_of_cons in Hin as [[= -> ->]|Hin].
    + by rewrite decide_True.
    + destruct (decide (k = k')) as [->|Hne]; [|by apply IH].
      exfalso. apply Hk'. apply list_elem_of_fmap. by exists (k', v).
Qed.

Lemma readProperty_own {V : Type} (o : gmap string V) key value :
  readProperty o key = OwnProperty value ↔ o !! key = Some value.
Proof.
  unfold readProperty. destruct (o !! key) as [v|].
  - split; intros [= ->]; reflexivity.
  - split; [|done]. by destruct (decide (key ∈ Object_prototype_properties)).
Qed.

Lemma planTestsBCH_own labels plan :
  planTestsBCH labels = OwnProperty plan
  ↔ supportedTestSetOverridesBCH !! join "," (default [] labels) = Some plan.
Proof. apply readProperty_own. Qed.

(** C4. [planTestsBCH] is a lookup in the static table, keyed by the
    comma-join of the labels (of the empty list when no labels are given): it
    returns what the read of the table at that key yields, which is the plan
    written for that key in the object literal whenever one is written; with
    no labels, or with the empty list, it returns the default plan (nonP2SH
    on the 2021 and 2022 nonstandard sets, then P2SH20 on the 2021 and 2022
    standard sets). *)
Theorem planTestsBCH_table_lookup :
  (∀ labels : option (list string),
     planTestsBCH labels
     = readProperty supportedTestSetOverridesBCH (join "," (default [] labels)))
  ∧ (∀ (labels : option (list string)) (plan : TestPlan),
       planTestsBCH labels = OwnProperty plan
       ↔ supportedTestSetOverridesBCH !! join "," (default [] labels)
         = Some plan)
  ∧ (∀ (labels : option (list string)) (plan : TestPlan),
       planTestsBCH labels = OwnProperty plan
       ↔ obj_get supportedTestSetOverridesBCH_entries
           (join "," (default [] labels))
         = Some plan)
  ∧ planTestsBCH None = OwnProperty defaultTestPlan
  ∧ planTestsBCH (Some []) = OwnProperty defaultTestPlan
  ∧ defaultTestPlan
    = [ {| mode := nonP2SH;
           sets := [TestSetId v2021 nonstandard; TestSetId v2022 nonstandard] |};
        {| mode := P2SH20;
           sets := [TestSetId v2021 standard; TestSetId v2022 standard] |} ]
  ∧ TestSetIdBCH_str <$> [TestSetId v2021 nonstandard; TestSetId v2022 nonstandard;
                          TestSetId v2021 standard; TestSetId v2022 standard]
    = ["2021_nonstandard"; "2022_nonstandard"; "2021_standard"; "2022_standard"].
Proof.
  split; [reflexivity|]. split; [exact planTestsBCH_own|]. split.
  { intros labels plan. rewrite planTestsBCH_own.
    unfold supportedTestSetOverridesBCH. by rewrite obj_get_list_to_map. }
  split; [vm_compute; reflexivity|]. split; [vm_compute; reflexivity|].
  split; vm_compute; reflexivity.
Qed.

Lemma planTestsBCH_Some_entry labels plan :
  planTestsBCH labels = OwnProperty plan →
  (join "," (default [] labels), plan) ∈ supportedTestSetOverridesBCH_entries.
Proof.
  rewrite planTestsBCH_own. unfold supportedTestSetOverridesBCH.
  rewrite obj_get_list_to_map. apply obj_get_Some_elem.
Qed.

Lemma planTestsBCH_None labels :
  (∀ plan, planTestsBCH labels ≠ OwnProperty plan) ↔
  join "," (default [] labels) ∉ supportedTestSetOverridesBCH_entries.*1.
Proof.
  rewrite <- obj_get_None_keys, <- obj_get_list_to_map.
  fold supportedTestSetOverridesBCH. split.
  - intros Hno.
    destruct (supportedTestSetOverridesBCH !! join "," (default [] labels))
      as [plan|] eqn:Hlookup; [|done].
    by apply planTestsBCH_own, Hno in Hlookup.
  - intros Hnone plan Hown. apply planTestsBCH_own in Hown. congruence.
Qed.

Lemma planTestsBCH_key labels :
  join "," (default [] labels) ∈ supportedTestSetOverridesBCH_entries.*1 →
  ∃ plan, planTestsBCH labels = OwnProperty plan.
Proof.
  intros Hkey.
  destruct (supportedTestSetOverridesBCH !! join "," (default [] labels))
    as [plan|] eqn:Hlookup.
  - exists plan. by apply planTestsBCH_own.
  - exfalso. unfold supportedTestSetOverridesBCH in Hlookup.
    rewrite obj_get_list_to_map in Hlookup.
    by apply obj_get_None_keys in Hlookup.
Qed.

Lemma planTestsBCH_not_key labels :
  join "," (default [] labels) ∉ supportedTestSetOverridesBCH_entries.*1 →
  planTestsBCH labels
  = if decide (join "," (default [] labels) ∈ Object_prototype_properties)
    then InheritedProperty (join "," (default [] labels))
    else NoProperty.
Proof.
  rewrite <- obj_get_None_keys, <- obj_get_list_to_map.
  fold supportedTestSetOverridesBCH. intros Hnone.
  unfold planTestsBCH, readProperty. by rewrite Hnone.
Qed.

(** X2. Every label list the type of a test definition admits is supported, and
    these lists join to the keys of the table, each to its own. *)
Lemma TestSetOverrideListBCH_supported :
  Forall (λ labels, ∃ plan, planTestsBCH (Some labels) = OwnProperty plan)
    TestSetOverrideListBCH
  ∧ join "," <$> TestSetOverrideListBCH ≡ₚ supportedTestSetOverridesBCH_entries.*1
  ∧ NoDup supportedTestSetOverridesBCH_entries.*1.
Proof.
  split; [|split].
  - unfold TestSetOverrideListBCH.
    repeat (apply Forall_cons_2; [vm_compute; eauto|]). apply Forall_nil_2.
  - apply (bool_decide_unpack _). vm_compute. exact I.
  - apply (bool_decide_unpack _). vm_compute. exact I.
Qed.

(** Distinct set ids are distinct strings, so the object the partitioner
    fills can be keyed by the ids. *)
Lemma TestSetIdBCH_str_inj a b :
  TestSetIdBCH_str a = TestSetIdBCH_str b → a = b.
Proof.
  destruct a as [[] []], b as [[] []]; vm_compute; intros Heq;
    first [reflexivity | discriminate Heq].
Qed.

Lemma table_modes :
  Forall (λ entry : string * TestPlan,
            Forall (λ planItem, mode planItem = nonP2SH ∨ mode planItem = P2SH20)
              entry.2)
    supportedTestSetOverridesBCH_entries.
Proof.
  unfold supportedTestSetOverridesBCH_entries.
  repeat match goal with
         | |- Forall _ (_ :: _) => constructor
         | |- Forall _ [] => constructor
         | |- _ ∨ _ => (left; reflexivity) || (right; reflexivity)
         | |- _ => progress cbn beta iota delta [snd mode]
         end.
Qed.

(** ** The expander *)

Lemma mapM_Normal_Forall2 {A B : Type} (f : A → Completion B) l k :
  mapM f l = Normal k ↔ Forall2 (λ x y, f x = Normal y) l k.
Proof.
  revert k. induction l as [|x l IH]; intros k; simpl.
  - split.
    + intros [= <-]. constructor.
    + intros Hk. apply Forall2_nil_inv_l in Hk as ->. reflexivity.
  - unfold mbind, Completion_bind at 1. destruct (f x) as [y|e] eqn:Hfx.
    + unfold mbind, Completion_bind, mret, Completion_ret.
      destruct (mapM f l) as [k'|e] eqn:Hrest.
      * split.
        -- intros [= <-]. constructor; [exact Hfx | by apply IH].
        -- intros Hk. apply Forall2_cons_inv_l in Hk as (y' & k'' & Hy & Hk & ->).
           apply IH in Hk. congruence.
      * split; [done|].
        intros Hk. apply Forall2_cons_inv_l in Hk as (y' & k'' & Hy & Hk & ->).
        apply IH in Hk. done.
    + split; [done|].
      intros Hk. apply Forall2_cons_inv_l in Hk as (y' & k'' & Hy & Hk & ->).
      congruence.
Qed.

Section ExpanderProperties.
Context `{LibauthImports}.

Lemma generateTest_Normal compiler g d u r n planItem t :
  generateTest compiler g d u r n planItem = Normal t ↔
  ∃ scenario,
    generateScenario compiler (scenarioRequest planItem)
    = GenerationResult (inr scenario)
    ∧ generatedFrom g d u r n planItem scenario t.
Proof.
  unfold generateTest, generatedFrom, flattenBinArray.
  destruct (generateScenario compiler (scenarioRequest planItem))
    as [message|[message|scenario]]; simpl.
  - split; [done | intros (? & [=] & _)].
  - split; [done | intros (? & [=] & _)].
  - rewrite app_nil_r. split.
    + intros [= <-]. exists scenario. simpl. repeat split; reflexivity.
    + intros (scenario' & [= <-] & Hs & Hd & Hu & Hr & Ht & Ho & Hsets & Hi).
      destruct t; simpl in *. by subst.
Qed.

(** The vectors returned for a definition are the plan items' vectors, one
    for one. *)
Lemma vmbTestDefinitionToVmbTests_Normal testDefinition groupName shortIdLength tests :
  vmbTestDefinitionToVmbTests testDefinition groupName shortIdLength
  = Normal tests ↔
  ∃ plan,
    planTestsBCH (def_testSetOverrideLabels testDefinition) = OwnProperty plan
    ∧ Forall2
        (λ planItem t,
           ∃ scenario,
             generateScenario (testCompiler testDefinition)
               (scenarioRequest planItem)
             = GenerationResult (inr scenario)
             ∧ generatedFrom (default EmptyString groupName)
                 (def_testDescription testDefinition)
                 (def_unlockingScript testDefinition)
                 (def_redeemOrLockingScript testDefinition)
                 (default defaultShortIdLength shortIdLength)
                 planItem scenario t)
        plan tests.
Proof.
  unfold vmbTestDefinitionToVmbTests.
  destruct (planTestsBCH (def_testSetOverrideLabels testDefinition))
    as [plan|name|].
  - rewrite mapM_Normal_Forall2. split.
    + intros Hall. exists plan. split; [done|].
      eapply Forall2_impl; [exact Hall|].
      intros planItem t Ht. by apply generateTest_Normal.
    + intros (plan' & [= <-] & Hall).
      eapply Forall2_impl; [exact Hall|].
      intros planItem t Ht. by apply generateTest_Normal.
  - split; [done | intros (? & [=] & _)].
  - split; [done | intros (? & [=] & _)].
Qed.

End ExpanderProperties.

(** ** The partitioner *)

Section ObjectProperties.
Context {K V : Type} `{EqDecision K}.
Implicit Types (o : list (K * V)) (k : K) (v : V).

Lemma obj_get_set o k v k' :
  obj_get (obj_set o k v) k' = if decide (k' = k) then Some v else obj_get o k'.
Proof.
  induction o as [|[k0 v0] o IH]; simpl.
  - reflexivity.
  - destruct (decide (k = k0)) as [->|Hne]; simpl.
    + destruct (decide (k' = k0)); reflexivity.
    + rewrite IH. destruct (decide (k' = k0)) as [->|]; [|reflexivity].
      destruct (decide (k0 = k)); [congruence | reflexivity].
Qed.

Lemma elem_of_obj_set_keys o k v k' :
  k' ∈ (obj_set o k v).*1 ↔ k' = k ∨ k' ∈ o.*1.
Proof.
  induction o as [|[k0 v0] o IH]; simpl.
  - rewrite elem_of_cons. tauto.
  - destruct (decide (k = k0)) as [->|Hne]; simpl; rewrite !elem_of_cons.
    + tauto.
    + rewrite IH. tauto.
Qed.

Lemma obj_set_NoDup o k v : NoDup o.*1 → NoDup (obj_set o k v).*1.
Proof.
  induction o as [|[k0 v0] o IH]; simpl.
  - intros _. apply NoDup_singleton.
  - rewrite NoDup_cons. intros [Hk0 Hnd].
    destruct (decide (k = k0)) as [->|Hne]; simpl; apply NoDup_cons.
    + done.
    + split; [|by apply IH]. rewrite elem_of_obj_set_keys. intros [?|?]; done.
Qed.

End ObjectProperties.

Lemma extendSet_extendSet o l1 l2 :
  extendSet (extendSet o l1) l2 = extendSet o (l1 ++ l2).
Proof.
  destruct l1 as [|x l1]; [reflexivity|].
  destruct l2 as [|y l2]; simpl.
  - by rewrite app_nil_r.
  - by rewrite <- app_assoc.
Qed.

Lemma occurrences_cons S k sets :
  occurrences S (k :: sets)
  = if decide (k = S) then Datatypes.S (occurrences S sets) else occurrences S sets.
Proof.
  unfold occurrences. rewrite filter_cons.
  destruct (decide (k = S)); reflexivity.
Qed.

Lemma occurrences_0 S sets : occurrences S sets = 0 ↔ S ∉ sets.
Proof.
  induction sets as [|k sets IH].
  - split; [intros _; apply not_elem_of_nil | reflexivity].
  - rewrite occurrences_cons, not_elem_of_cons.
    destruct (decide (k = S)) as [->|Hne].
    + split; [done | intros [? _]; done].
    + rewrite IH. split; [intros ?; split; congruence | tauto].
Qed.

Lemma occurrences_NoDup S sets :
  NoDup sets → occurrences S sets = if decide (S ∈ sets) then 1 else 0.
Proof.
  induction 1 as [|k sets Hk Hnd IH].
  - reflexivity.
  - rewrite occurrences_cons, IH.
    destruct (decide (k = S)) as [->|Hne].
    + rewrite decide_False by done. rewrite decide_True; [done|].
      apply list_elem_of_here.
    + destruct (decide (S ∈ sets)) as [Hin|Hnin].
      * rewrite decide_True; [done|]. by apply list_elem_of_further.
      * rewrite decide_False; [done|].
        rewrite not_elem_of_cons. split; congruence.
Qed.

Lemma appendToSet_get t acc k S :
  obj_get (appendToSet t acc k) S
  = if decide (S = k) then extendSet (obj_get acc S) [t] else obj_get acc S.
Proof.
  unfold appendToSet. rewrite obj_get_set.
  destruct (decide (S = k)) as [->|]; reflexivity.
Qed.

Lemma foldl_appendToSet_get t sets acc S :
  obj_get (foldl (appendToSet t) acc sets) S
  = extendSet (obj_get acc S) (replicate (occurrences S sets) t).
Proof.
  revert acc. induction sets as [|k sets IH]; intros acc; simpl.
  - reflexivity.
  - rewrite IH, appendToSet_get, occurrences_cons.
    destruct (decide (S = k)) as [->|Hne].
    + rewrite decide_True by done. by rewrite extendSet_extendSet.
    + rewrite decide_False by congruence. reflexivity.
Qed.

Lemma foldl_partitionStep_get master acc S :
  obj_get (foldl partitionStep acc master) S
  = extendSet (obj_get acc S) (copiesInSet S master).
Proof.
  revert acc. induction master as [|m master IH]; intros acc; simpl.
  - reflexivity.
  - rewrite IH. unfold partitionStep.
    rewrite foldl_appendToSet_get, extendSet_extendSet. reflexivity.
Qed.

(** What the partitioner holds at a set id. *)
Lemma partition_get master S :
  obj_get (vmbTestPartitionMasterTestList master) S
  = extendSet None (copiesInSet S master).
Proof. unfold vmbTestPartitionMasterTestList. apply foldl_partitionStep_get. Qed.

Lemma copiesInSet_cons S m master :
  copiesInSet S (m :: master)
  = replicate (occurrences S (testSets m)) (withoutSets m) ++ copiesInSet S master.
Proof. reflexivity. Qed.

Lemma copiesInSet_nil S master :
  copiesInSet S master = [] ↔ Forall (λ m, S ∉ testSets m) master.
Proof.
  induction master as [|m master IH].
  - split; [constructor | reflexivity].
  - rewrite Forall_cons, <- IH, <- occurrences_0, copiesInSet_cons.
    destruct (occurrences S (testSets m)); simpl.
    + tauto.
    + split; [done | intros [? _]; done].
Qed.

Lemma copiesInSet_NoDup S master :
  Forall (λ m, NoDup (testSets m)) master →
  copiesInSet S master = withoutSets <$> filter (λ m, S ∈ testSets m) master.
Proof.
  induction 1 as [|m master Hm _ IH].
  - reflexivity.
  - rewrite copiesInSet_cons, filter_cons, IH, occurrences_NoDup by done.
    destruct (decide (S ∈ testSets m)); reflexivity.
Qed.

Lemma elem_of_copiesInSet S master t :
  t ∈ copiesInSet S master ↔ ∃ m, m ∈ master ∧ S ∈ testSets m ∧ t = withoutSets m.
Proof.
  unfold copiesInSet. rewrite list_elem_of_bind. split.
  - intros (m & Ht & Hm). apply elem_of_replicate in Ht as [-> Hocc].
    exists m. repeat split; [done|].
    destruct (decide (S ∈ testSets m)) as [|Hnin]; [done|].
    by apply occurrences_0 in Hnin.
  - intros (m & Hm & HS & ->). exists m. split; [|done].
    apply elem_of_replicate. split; [done|].
    rewrite occurrences_0. tauto.
Qed.

Lemma partition_keys_NoDup master :
  NoDup (vmbTestPartitionMasterTestList master).*1.
Proof.
  unfold vmbTestPartitionMasterTestList.
  assert (Hgen : ∀ acc : list (TestSetIdBCH * list VmbTest),
             NoDup acc.*1 → NoDup (foldl partitionStep acc master).*1).
  { induction master as [|m master IH]; intros acc Hacc; simpl; [done|].
    apply IH. unfold partitionStep.
    generalize (withoutSets m). intros t. revert acc Hacc.
    induction (testSets m) as [|k sets IHs]; intros acc Hacc; simpl; [done|].
    apply IHs. unfold appendToSet. by apply obj_set_NoDup. }
  apply Hgen. simpl. apply NoDup_nil_2.
Qed.

Lemma elem_of_partition master S tests :
  (S, tests) ∈ vmbTestPartitionMasterTestList master ↔
  obj_get (vmbTestPartitionMasterTestList master) S = Some tests.
Proof.
  split.
  - apply obj_get_elem_NoDup, partition_keys_NoDup.
  - apply obj_get_Some_elem.
Qed.

(** The partitioned tuple is the master tuple without its [testSets] slot
    (index 6): the six leading strings and the optional trailing input index
    are carried over. *)
Lemma withoutSets_tuple m :
  VmbTest_tuple (withoutSets m) = delete 6 (VmbTestMasterBCH_tuple m).
Proof.
  unfold VmbTest_tuple, VmbTestMasterBCH_tuple, withoutSets; simpl.
  destruct (inputIndex m); reflexivity.
Qed.

(** C2 (amended). For every master test list and set id [S], the partitioner
    holds at [S] the entries of the master list, in master order, stripped of
    their [testSets] field and otherwise unchanged, each entry once per
    occurrence of [S] in its [testSets]; when no [testSets] array repeats an
    id, this is exactly the list of the stripped entries whose [testSets]
    contains [S]. A set id that occurs in no entry's [testSets] is absent
    from the result. *)
Theorem partition_by_test_set (master : list VmbTestMasterBCH) (S : TestSetIdBCH) :
  obj_get (vmbTestPartitionMasterTestList master) S
  = (if decide (Exists (λ m, S ∈ testSets m) master)
     then Some (copiesInSet S master)
     else None)
  ∧ copiesInSet S master
    = (m ← master; replicate (occurrences S (testSets m)) (withoutSets m))
  ∧ (Forall (λ m, NoDup (testSets m)) master →
     copiesInSet S master
     = withoutSets <$> filter (λ m, S ∈ testSets m) master)
  ∧ (∀ m, VmbTest_tuple (withoutSets m) = delete 6 (VmbTestMasterBCH_tuple m)).
Proof.
  split; [|split; [reflexivity|split; [apply copiesInSet_NoDup|apply withoutSets_tuple]]].
  rewrite partition_get.
  destruct (decide (Exists (λ m, S ∈ testSets m) master)) as [Hex|Hnex].
  - destruct (copiesInSet S master) as [|t l] eqn:Hcopies; [|reflexivity].
    exfalso. apply copiesInSet_nil in Hcopies.
    apply Exists_exists in Hex as (m & Hm & HS).
    rewrite Forall_forall in Hcopies. by apply (Hcopies m).
  - assert (Hnil : copiesInSet S master = []).
    { apply copiesInSet_nil. apply Forall_forall. intros m Hm HS.
      apply Hnex, Exists_exists. eauto. }
    by rewrite Hnil.
Qed.

(** ** The generator script *)

Section ScriptRuns.
Context `{NodeImports}.

Lemma writesReturn_nil fs : writesReturn fs [].
Proof. intros before path data later Heq. by destruct before. Qed.

Lemma writesReturn_cons fs file files :
  (fs_writeFileSync fs file.1 file.2 "utf8").2 = Normal tt →
  writesReturn (fs_writeFileSync fs file.1 file.2 "utf8").1 files →
  writesReturn fs (file :: files).
Proof.
  intros Hfile Hfiles before path data later Heq.
  destruct before as [|first before]; simpl in Heq.
  - injection Heq as -> ->. exact Hfile.
  - injection Heq as -> ->. exact (Hfiles before path data later eq_refl).
Qed.

Lemma writeFileSync_then path data (k : Script unit) fs :
  (writeFileSync path data "utf8";; k) fs
  = match (fs_writeFileSync fs path data "utf8").2 with
    | Normal _ =>
        ((k (fs_writeFileSync fs path data "utf8").1).1,
         MkRun
           (WriteFileSync path data "utf8"
            :: effects (k (fs_writeFileSync fs path data "utf8").1).2)
           (completion (k (fs_writeFileSync fs path data "utf8").1).2))
    | Throw e => ((fs_writeFileSync fs path data "utf8").1, MkRun [] (Throw e))
    end.
Proof.
  unfold mbind, Script_bind, writeFileSync. cbn [fst snd].
  by destruct (fs_writeFileSync fs path data "utf8").2.
Qed.

Lemma console_log_then message (k : Script unit) fs :
  (console_log message;; k) fs
  = ((k fs).1,
     MkRun (ConsoleLog message :: effects (k fs).2) (completion (k fs).2)).
Proof. reflexivity. Qed.

Lemma mret_then {A B : Type} (a : A) (f : A → Script B) fs :
  ((mret a : Script A) ≫= f) fs
  = ((f a fs).1, MkRun (effects (f a fs).2) (completion (f a fs).2)).
Proof. reflexivity. Qed.

Lemma forEach_then_console_log {A : Type} (f : A → Script unit) l message fs :
  (forEach f l;; console_log message) fs
  = match completion (forEach f l fs).2 with
    | Normal _ =>
        ((forEach f l fs).1,
         MkRun (effects (forEach f l fs).2 ++ [ConsoleLog message]) (Normal tt))
    | Throw e => ((forEach f l fs).1, MkRun (effects (forEach f l fs).2) (Throw e))
    end.
Proof. reflexivity. Qed.

(** The loop that writes the set files, from any state of the file system:
    it writes a first part of the files and stops at the first call that
    throws. *)
Lemma forEach_writeFileSync {A : Type} (path data : A → string) l fs :
  ∃ written later,
    (λ x, (path x, data x)) <$> l = written ++ later
    ∧ effects (forEach (λ x, writeFileSync (path x) (data x) "utf8") l fs).2
      = (λ file : string * string, WriteFileSync file.1 file.2 "utf8")
        <$> written
    ∧ writesReturn fs written
    ∧ match later with
      | [] =>
          completion
            (forEach (λ x, writeFileSync (path x) (data x) "utf8") l fs).2
          = Normal tt
      | file :: _ =>
          ∃ e,
            completion
              (forEach (λ x, writeFileSync (path x) (data x) "utf8") l fs).2
            = Throw e
            ∧ (fs_writeFileSync (fileSystemAfter fs written) file.1 file.2
                 "utf8").2
              = Throw e
      end.
Proof.
  revert fs. induction l as [|x l IH]; intros fs.
  - exists [], []. repeat split. apply writesReturn_nil.
  - cbn [forEach]. rewrite writeFileSync_then.
    destruct (fs_writeFileSync fs (path x) (data x) "utf8") as [fs1 [[]|e]]
      eqn:Hwrite; cbn [fst snd completion effects].
    + destruct (IH fs1) as (written & later & Hfiles & Heffects & Hreturn & Hend).
      exists ((path x, data x) :: written), later.
      split; [by rewrite fmap_cons, Hfiles|].
      split; [by rewrite Heffects, fmap_cons|].
      split.
      * apply writesReturn_cons; cbn [fst snd]; by rewrite Hwrite.
      * unfold fileSystemAfter. cbn [foldl fst snd]. rewrite Hwrite.
        exact Hend.
    + exists [], ((path x, data x) :: ((λ x, (path x, data x)) <$> l)).
      split; [reflexivity|]. split; [reflexivity|].
      split; [apply writesReturn_nil|].
      exists e. split; [reflexivity|].
      unfold fileSystemAfter. cbn [foldl fst snd]. by rewrite Hwrite.
Qed.

(** A run with an output directory: the two first messages, the files
    written, which are a first part of the planned files, and the last
    message when all were written. *)
Lemma generateVmbTests_run vmbTestsBch argv outputDir :
  argv !! 2%nat = Some outputDir →
  ∃ written later,
    plannedFiles outputDir (concat (concat vmbTestsBch)) = written ++ later
    ∧ effects (generateVmbTests vmbTestsBch argv)
      = [ ConsoleLog "Generating vmb_tests...";
          ConsoleLog "Generated vmb_tests. Writing files..." ]
        ++ ((λ file : string * string, WriteFileSync file.1 file.2 "utf8")
            <$> written)
        ++ match later with
           | [] => [ConsoleLog "vmb_test files written."]
           | _ => []
           end
    ∧ writesReturn fileSystem written
    ∧ match later with
      | [] => completion (generateVmbTests vmbTestsBch argv) = Normal tt
      | file :: _ =>
          ∃ e,
            completion (generateVmbTests vmbTestsBch argv) = Throw e
            ∧ (fs_writeFileSync (fileSystemAfter fileSystem written)
                 file.1 file.2 "utf8").2
              = Throw e
      end.
Proof.
  intros Hdir. unfold generateVmbTests, generateVmbTestsScript, plannedFiles.
  rewrite Hdir. cbv zeta. unfold Object_entries.
  set (masterData :=
         JSON_stringify (masterListJson (concat (concat vmbTestsBch)))).
  set (entries := vmbTestPartitionMasterTestList (concat (concat vmbTestsBch))).
  rewrite console_log_then. cbn [fst snd effects completion].
  rewrite mret_then. cbn [fst snd effects completion].
  rewrite console_log_then. cbn [fst snd effects completion].
  rewrite writeFileSync_then.
  rewrite !forEach_then_console_log.
  remember (resolve outputDir +:+ "/bch_vmb_tests.json") as master eqn:Hmaster.
  destruct (fs_writeFileSync fileSystem master masterData "utf8")
    as [fs1 [[]|e]] eqn:Hwrite; cbn [fst snd completion effects].
  - destruct (forEach_writeFileSync
                (λ entry : TestSetIdBCH * list VmbTest,
                   testSetFilepath (resolve outputDir) (TestSetIdBCH_str entry.1))
                (λ entry, JSON_stringify (testSetJson entry.2)) entries fs1)
      as (written & later & Hfiles & Heffects & Hreturn & Hend).
    exists ((master, masterData) :: written), later.
    split; [by rewrite Hfiles|].
    assert (Hafter : fileSystemAfter fileSystem ((master, masterData) :: written)
                     = fileSystemAfter fs1 written).
    { unfold fileSystemAfter. cbn [foldl fst snd]. by rewrite Hwrite. }
    rewrite Hafter.
    destruct later as [|file later].
    + rewrite Hend. cbn [completion effects]. rewrite Heffects.
      split; [reflexivity|]. split; [|reflexivity].
      apply writesReturn_cons; cbn [fst snd]; by rewrite Hwrite.
    + destruct Hend as (e & Hthrow & Hfile). rewrite Hthrow.
      cbn [completion effects]. rewrite Heffects, app_nil_r.
      split; [reflexivity|]. split; [|eauto].
      apply writesReturn_cons; cbn [fst snd]; by rewrite Hwrite.
  - exists [], ((master, masterData)
                :: ((λ entry : TestSetIdBCH * list VmbTest,
                       (testSetFilepath (resolve outputDir)
                          (TestSetIdBCH_str entry.1),
                        JSON_stringify (testSetJson entry.2))) <$> entries)).
    split; [reflexivity|]. split; [reflexivity|].
    split; [apply writesReturn_nil|].
    exists e. split; [reflexivity|].
    unfold fileSystemAfter. cbn [foldl fst snd]. by rewrite Hwrite.
Qed.

Lemma generateVmbTests_no_directory vmbTestsBch argv :
  argv !! 2%nat = None →
  generateVmbTests vmbTestsBch argv
  = MkRun [ConsoleLog "Generating vmb_tests..."]
      (Throw (Error "Script requires an output directory.")).
Proof.
  intros Hdir. unfold generateVmbTests, generateVmbTestsScript.
  rewrite Hdir. reflexivity.
Qed.

End ScriptRuns.

Lemma filesWritten_written (written : list (string * string)) :
  filesWritten
    ((λ file : string * string, WriteFileSync file.1 file.2 "utf8") <$> written)
  = written.
Proof.
  unfold filesWritten. induction written as [|[path data] written IH];
    simpl; [reflexivity|].
  f_equal. exact IH.
Qed.

Lemma filesWritten_trace (written : list (string * string)) (rest : list Effect) :
  Forall (λ e, match e with ConsoleLog _ => True | WriteFileSync _ _ _ => False end)
    rest →
  filesWritten
    ([ ConsoleLog "Generating vmb_tests...";
       ConsoleLog "Generated vmb_tests. Writing files..." ]
     ++ ((λ file : string * string, WriteFileSync file.1 file.2 "utf8")
         <$> written)
     ++ rest)
  = written.
Proof.
  intros Hrest. unfold filesWritten. cbn [app omap list_omap].
  rewrite omap_app. fold (filesWritten ((λ file : string * string,
      WriteFileSync file.1 file.2 "utf8") <$> written)).
  rewrite filesWritten_written.
  assert (Hnone : omap (λ e, match e with
                             | WriteFileSync path data _ => Some (path, data)
                             | ConsoleLog _ => None
                             end) rest = []).
  { induction Hrest as [|[message|path data encoding] rest Hx _ IH];
      simpl; [reflexivity|exact IH|done]. }
  rewrite Hnone. apply app_nil_r.
Qed.

Section ScriptFiles.
Context `{NodeImports}.

(** The files written by a run with an output directory are a first part
    of the planned files; what is left over, if anything, starts with the
    file whose write threw. *)
Lemma generateVmbTests_written vmbTestsBch argv outputDir :
  argv !! 2%nat = Some outputDir →
  ∃ later,
    plannedFiles outputDir (concat (concat vmbTestsBch))
    = filesWritten (effects (generateVmbTests vmbTestsBch argv)) ++ later
    ∧ writesReturn fileSystem
        (filesWritten (effects (generateVmbTests vmbTestsBch argv)))
    ∧ match later with
      | [] => completion (generateVmbTests vmbTestsBch argv) = Normal tt
      | file :: _ =>
          ∃ e,
            completion (generateVmbTests vmbTestsBch argv) = Throw e
            ∧ (fs_writeFileSync
                 (fileSystemAfter fileSystem
                    (filesWritten (effects (generateVmbTests vmbTestsBch argv))))
                 file.1 file.2 "utf8").2
              = Throw e
      end.
Proof.
  intros Hdir.
  destruct (generateVmbTests_run vmbTestsBch argv outputDir Hdir)
    as (written & later & Hfiles & Heffects & Hreturn & Hend).
  assert (Hwritten : filesWritten (effects (generateVmbTests vmbTestsBch argv))
                     = written).
  { rewrite Heffects. apply filesWritten_trace.
    destruct later; by repeat constructor. }
  rewrite Hwritten. exists later. by repeat split.
Qed.

End ScriptFiles.

Lemma chip_sets_go_to_CHIPs S :
  String_includes (TestSetIdBCH_str S) "chip"
  = bool_decide (setVersion S ≠ v2021 ∧ setVersion S ≠ v2022).
Proof. destruct S as [[] []]; vm_compute; reflexivity. Qed.

(** C5 (amended). Run with an output directory, the script sets out to
    write, in this order and nothing else: [bch_vmb_tests.json] under the
    resolved output directory, holding the serialized flattened master list,
    and then, for each property of the partition of that list, the
    serialized test list of the set in [bch_vmb_tests_<setName>.json], under
    the output directory or, when the set name contains "chip", under its
    [CHIPs] subdirectory. It creates no directory and stops at the first
    [writeFileSync] call that throws, with what that call threw: the files
    written are a first part of these files, and they are all of them
    exactly when every call returns, which is when the script ends
    normally. The partition has one property per set id that occurs in some
    entry's [testSets], and each such list is non-empty. Run without an
    output directory, the script throws and writes nothing. *)
Theorem generator_writes `{NodeImports}
    (vmbTestsBch : list (list (list VmbTestMasterBCH))) (argv : list string) :
  let allTestCases := concat (concat vmbTestsBch) in
  let run := generateVmbTests vmbTestsBch argv in
  match argv !! 2%nat with
  | None =>
      filesWritten (effects run) = []
      ∧ completion run = Throw (Error "Script requires an output directory.")
  | Some outputDir =>
      let planned :=
        (resolve outputDir +:+ "/bch_vmb_tests.json",
         JSON_stringify (masterListJson allTestCases))
        :: ((λ entry : TestSetIdBCH * list VmbTest,
               (testSetFilepath (resolve outputDir) (TestSetIdBCH_str entry.1),
                JSON_stringify (testSetJson entry.2)))
            <$> vmbTestPartitionMasterTestList allTestCases) in
      filesWritten (effects run) `prefix_of` planned
      ∧ (writesReturn fileSystem planned →
         completion run = Normal tt ∧ filesWritten (effects run) = planned)
      ∧ (completion run = Normal tt ↔ filesWritten (effects run) = planned)
      ∧ (filesWritten (effects run) = planned ↔ writesReturn fileSystem planned)
      ∧ (∀ e,
           completion run = Throw e
           ↔ ∃ path data later,
               planned = filesWritten (effects run) ++ (path, data) :: later
               ∧ (fs_writeFileSync
                    (fileSystemAfter fileSystem (filesWritten (effects run)))
                    path data "utf8").2
                 = Throw e)
  end
  ∧ NoDup (vmbTestPartitionMasterTestList allTestCases).*1
  ∧ (∀ S tests,
       (S, tests) ∈ vmbTestPartitionMasterTestList allTestCases
       ↔ tests = copiesInSet S allTestCases ∧ tests ≠ [])
  ∧ (∀ S, copiesInSet S allTestCases ≠ []
          ↔ Exists (λ m, S ∈ testSets m) allTestCases)
  ∧ (∀ dir S,
       testSetFilepath dir (TestSetIdBCH_str S)
       = if bool_decide (setVersion S ≠ v2021 ∧ setVersion S ≠ v2022)
         then dir +:+ "/CHIPs/bch_vmb_tests_" +:+ TestSetIdBCH_str S +:+ ".json"
         else dir +:+ "/bch_vmb_tests_" +:+ TestSetIdBCH_str S +:+ ".json").
Proof.
  intros allTestCases run. split; [|split; [|split; [|split]]].
  - subst run.
    destruct (argv !! 2%nat) as [outputDir|] eqn:Hdir;
      [|by rewrite (generateVmbTests_no_directory _ _ Hdir)].
    cbv zeta.
    change ((resolve outputDir +:+ "/bch_vmb_tests.json",
             JSON_stringify (masterListJson allTestCases))
            :: ((λ entry : TestSetIdBCH * list VmbTest,
                   (testSetFilepath (resolve outputDir) (TestSetIdBCH_str entry.1),
                    JSON_stringify (testSetJson entry.2)))
                <$> vmbTestPartitionMasterTestList allTestCases))
      with (plannedFiles outputDir allTestCases).
    destruct (generateVmbTests_written vmbTestsBch argv outputDir Hdir)
      as (later & Hfiles & Hreturn & Hend).
    fold allTestCases in Hfiles.
    set (written := filesWritten (effects (generateVmbTests vmbTestsBch argv)))
      in *.
    assert (Hall : written = plannedFiles outputDir allTestCases ↔ later = []).
    { rewrite Hfiles. split.
      - intros Heq. apply (f_equal length) in Heq.
        rewrite length_app in Heq. destruct later; [done | simpl in Heq; lia].
      - intros ->. by rewrite app_nil_r. }
    assert (Hnormal : completion (generateVmbTests vmbTestsBch argv) = Normal tt
                      ↔ later = []).
    { destruct later as [|file later]; [done|].
      destruct Hend as (e & -> & _). split; done. }
    assert (Hplanned : written = plannedFiles outputDir allTestCases
                       ↔ writesReturn fileSystem (plannedFiles outputDir allTestCases)).
    { split; [by intros <-|]. intros Hplanned. apply Hall.
      destruct later as [|[path data] later]; [done|].
      destruct Hend as (e & _ & Hthrow). cbn [fst snd] in Hthrow.
      rewrite (Hplanned written path data later Hfiles) in Hthrow. done. }
    split; [by exists later|]. split; [|split; [|split; [exact Hplanned|]]].
    + intros Hplan. apply Hplanned in Hplan. split; [|exact Hplan].
      by apply Hnormal, Hall.
    + by rewrite Hnormal, Hall.
    + intros e. split.
      * intros Hthrow. destruct later as [|[path data] later].
        -- rewrite Hend in Hthrow. done.
        -- destruct Hend as (e' & He' & Hfile). rewrite He' in Hthrow.
           injection Hthrow as <-. by exists path, data, later.
      * intros (path & data & later' & Hsplit & Hthrow).
        rewrite Hfiles in Hsplit. apply app_inv_head in Hsplit. subst later.
        destruct Hend as (e' & He' & Hfile). cbn [fst snd] in Hfile.
        rewrite Hfile in Hthrow. injection Hthrow as <-. exact He'.
  - apply partition_keys_NoDup.
  - intros S tests. rewrite elem_of_partition, partition_get.
    destruct (copiesInSet S allTestCases) as [|t l]; simpl.
    + split; [done | intros [-> ?]; done].
    + split; [intros [= <-]; done | intros [-> _]; done].
  - intros S. split.
    + intros Hne.
      destruct (decide (Exists (λ m, S ∈ testSets m) allTestCases))
        as [|Hnex]; [done|].
      exfalso. apply Hne, copiesInSet_nil, Forall_forall. intros m Hm HS.
      apply Hnex, Exists_exists. eauto.
    + intros Hex Hnil. apply copiesInSet_nil in Hnil.
      apply Exists_exists in Hex as (m & Hm & HS).
      rewrite Forall_forall in Hnil. by apply (Hnil m).
  - intros dir S. unfold testSetFilepath. by rewrite chip_sets_go_to_CHIPs.
Qed.

(** ** Strings *)

Lemma substring_0_min n s :
  String.substring 0 (Nat.min n (String.length s)) s = String.substring 0 n s.
Proof.
  revert n. induction s as [|c s IH]; intros [|n]; simpl; try reflexivity.
  by rewrite IH.
Qed.

(** With a non-negative end, [slice(0, n)] is the first [n] characters. *)
Lemma String_slice_nonneg s n :
  (0 ≤ n)%Z → String_slice s 0 n = String.substring 0 (Z.to_nat n) s.
Proof.
  intros Hn. unfold String_slice.
  replace (0 <? 0)%Z with false by reflexivity.
  replace (n <? 0)%Z with false by (symmetry; apply Z.ltb_ge; lia).
  replace (Z.to_nat (Z.min 0 (Z.of_nat (String.length s)))) with 0%nat by lia.
  replace (Z.to_nat
             (Z.max
                (Z.min n (Z.of_nat (String.length s))
                 - Z.min 0 (Z.of_nat (String.length s))) 0))
    with (Nat.min (Z.to_nat n) (String.length s)) by lia.
  apply substring_0_min.
Qed.

Lemma String_includes_eq s sub :
  String_includes s sub
  = String.prefix sub s ||
    match s with
    | EmptyString => false
    | String _ s' => String_includes s' sub
    end.
Proof. destruct s; reflexivity. Qed.

Lemma prefix_append s c : String.prefix s (s +:+ c) = true.
Proof.
  induction s as [|a s IH]; simpl; [destruct c; reflexivity|].
  destruct (Ascii.ascii_dec a a); [exact IH | done].
Qed.

Lemma String_includes_append_r a x sub :
  String_includes x sub = true → String_includes (a +:+ x) sub = true.
Proof.
  intros Hx. induction a as [|c a IH]; simpl; [exact Hx|].
  rewrite IH. apply orb_true_r.
Qed.

Lemma String_includes_append_l sub c : String_includes (sub +:+ c) sub = true.
Proof. rewrite String_includes_eq, prefix_append. reflexivity. Qed.

Lemma description_includes_mode g d m :
  String_includes (g +:+ ": " +:+ d +:+ " (" +:+ TestMode_str m +:+ ")")
    ("(" +:+ TestMode_str m +:+ ")") = true.
Proof.
  do 3 apply String_includes_append_r.
  replace (" (" +:+ TestMode_str m +:+ ")")
    with (" " +:+ ("(" +:+ TestMode_str m +:+ ")") +:+ EmptyString)
    by (destruct m; reflexivity).
  apply String_includes_append_r, String_includes_append_l.
Qed.

(** ** What the expander returns *)

Lemma mapM_Normal_total {A B : Type} (f : A → Completion B) l :
  Forall (λ x, ∃ y, f x = Normal y) l → ∃ k, mapM f l = Normal k.
Proof.
  induction 1 as [|x l [y Hy] _ [k Hk]]; simpl.
  - by exists [].
  - exists (y :: k). by rewrite Hy, Hk.
Qed.

Section ExpanderResults.
Context `{LibauthImports}.

(** C1. When the labels of a test definition join to a key of the table and
    every [compiler.generateScenario] call made for the resolved plan
    succeeds, [vmbTestDefinitionToVmbTests] returns one test vector per plan
    item, in plan order: the vector of a plan item has that item's sets as
    its [testSets], and its description is
    [groupName: testDescription (mode)], which contains the item's mode in
    parentheses. *)
Theorem one_vector_per_plan_item (testDefinition : VmbTestDefinition)
    (groupName : option string) (shortIdLength : option Z) :
  join "," (default [] (def_testSetOverrideLabels testDefinition))
    ∈ supportedTestSetOverridesBCH_entries.*1 →
  (∀ plan planItem,
     planTestsBCH (def_testSetOverrideLabels testDefinition) = OwnProperty plan →
     planItem ∈ plan →
     ∃ scenario,
       generateScenario (testCompiler testDefinition) (scenarioRequest planItem)
       = GenerationResult (inr scenario)) →
  ∃ plan tests,
    planTestsBCH (def_testSetOverrideLabels testDefinition) = OwnProperty plan
    ∧ vmbTestDefinitionToVmbTests testDefinition groupName shortIdLength
      = Normal tests
    ∧ length tests = length plan
    ∧ Forall2
        (λ planItem t,
           testSets t = sets planItem
           ∧ testDescription t
             = default EmptyString groupName +:+ ": "
                 +:+ def_testDescription testDefinition +:+ " ("
                 +:+ TestMode_str (mode planItem) +:+ ")"
           ∧ String_includes (testDescription t)
               ("(" +:+ TestMode_str (mode planItem) +:+ ")") = true)
        plan tests.
Proof.
  intros Hkey Hsucceeds.
  destruct (planTestsBCH_key _ Hkey) as [plan Hplan].
  assert (Hrun : ∃ tests,
             vmbTestDefinitionToVmbTests testDefinition groupName shortIdLength
             = Normal tests).
  { unfold vmbTestDefinitionToVmbTests. rewrite Hplan.
    apply mapM_Normal_total, Forall_forall. intros planItem Hin.
    destruct (Hsucceeds plan planItem Hplan Hin) as [scenario Hscenario].
    unfold generateTest. rewrite Hscenario. eauto. }
  destruct Hrun as [tests Hrun]. exists plan, tests.
  split; [exact Hplan|]. split; [exact Hrun|].
  apply vmbTestDefinitionToVmbTests_Normal in Hrun as (plan' & Hplan' & Hall).
  rewrite Hplan in Hplan'. injection Hplan' as <-.
  split; [symmetry; eapply Forall2_length, Hall|].
  eapply Forall2_impl; [exact Hall|].
  intros planItem t (scenario & _ & _ & Hd & _ & _ & _ & _ & Hsets & _).
  split; [exact Hsets|]. split; [exact Hd|].
  rewrite Hd. apply description_includes_mode.
Qed.

(** C3. With a non-negative [shortIdLength] (5 when none is given), the
    [shortId] of every generated test vector is the first [shortIdLength]
    characters of the bech32 encoding of the regrouping, from 8-bit to 5-bit
    words, of the SHA-256 hash of the encoded transaction followed by the
    encoded source outputs of the scenario generated for its plan item. *)
Theorem shortId_is_hash_prefix (testDefinition : VmbTestDefinition)
    (groupName : option string) (shortIdLength : option Z)
    (tests : list VmbTestMasterBCH) :
  (0 ≤ default defaultShortIdLength shortIdLength)%Z →
  vmbTestDefinitionToVmbTests testDefinition groupName shortIdLength
  = Normal tests →
  defaultShortIdLength = 5%Z
  ∧ ∃ plan,
      planTestsBCH (def_testSetOverrideLabels testDefinition) = OwnProperty plan
      ∧ Forall2
          (λ planItem t,
             ∃ scenario,
               generateScenario (testCompiler testDefinition)
                 (scenarioRequest planItem)
               = GenerationResult (inr scenario)
               ∧ shortId t
                 = String.substring 0
                     (Z.to_nat (default defaultShortIdLength shortIdLength))
                     (encodeBech32
                        (regroupBits
                           {| bin :=
                                sha256_hash
                                  (encodeTransaction
                                     (transaction (program scenario))
                                   ++ encodeTransactionOutputs
                                        (sourceOutputs (program scenario)));
                              resultWordLength := 5;
                              sourceWordLength := 8 |})))
          plan tests.
Proof.
  intros Hlen Hrun. split; [reflexivity|].
  apply vmbTestDefinitionToVmbTests_Normal in Hrun as (plan & Hplan & Hall).
  exists plan. split; [exact Hplan|].
  eapply Forall2_impl; [exact Hall|].
  intros planItem t (scenario & Hscenario & Hid & _).
  exists scenario. split; [exact Hscenario|].
  rewrite Hid. by apply String_slice_nonneg.
Qed.

(** C6. Take two generated test vectors, from any two test definitions,
    group names and plan items, generated with the same [shortIdLength]. If
    the scenarios they were generated from have equal encoded transactions
    and equal encoded source outputs, the two vectors have the same
    [shortId]. *)
Theorem shortId_depends_on_encodings
    (definition1 definition2 : VmbTestDefinition)
    (groupName1 groupName2 : option string) (shortIdLength : option Z)
    (plan1 plan2 : TestPlan) (tests1 tests2 : list VmbTestMasterBCH)
    (i j : nat) (planItem1 planItem2 : TestPlanItem)
    (scenario1 scenario2 : Scenario) (t1 t2 : VmbTestMasterBCH) :
  vmbTestDefinitionToVmbTests definition1 groupName1 shortIdLength
  = Normal tests1 →
  vmbTestDefinitionToVmbTests definition2 groupName2 shortIdLength
  = Normal tests2 →
  planTestsBCH (def_testSetOverrideLabels definition1) = OwnProperty plan1 →
  planTestsBCH (def_testSetOverrideLabels definition2) = OwnProperty plan2 →
  plan1 !! i = Some planItem1 →
  plan2 !! j = Some planItem2 →
  tests1 !! i = Some t1 →
  tests2 !! j = Some t2 →
  generateScenario (testCompiler definition1) (scenarioRequest planItem1)
  = GenerationResult (inr scenario1) →
  generateScenario (testCompiler definition2) (scenarioRequest planItem2)
  = GenerationResult (inr scenario2) →
  encodeTransaction (transaction (program scenario1))
  = encodeTransaction (transaction (program scenario2)) →
  encodeTransactionOutputs (sourceOutputs (program scenario1))
  = encodeTransactionOutputs (sourceOutputs (program scenario2)) →
  shortId t1 = shortId t2.
Proof.
  intros Hrun1 Hrun2 Hplan1 Hplan2 Hi Hj Ht1 Ht2 Hs1 Hs2 Htx Hout.
  apply vmbTestDefinitionToVmbTests_Normal in Hrun1 as (p1 & Hp1 & Hall1).
  apply vmbTestDefinitionToVmbTests_Normal in Hrun2 as (p2 & Hp2 & Hall2).
  rewrite Hplan1 in Hp1. injection Hp1 as <-.
  rewrite Hplan2 in Hp2. injection Hp2 as <-.
  destruct (Forall2_lookup_lr _ _ _ _ _ _ Hall1 Hi Ht1)
    as (s1 & Hs1' & Hid1 & _).
  destruct (Forall2_lookup_lr _ _ _ _ _ _ Hall2 Hj Ht2)
    as (s2 & Hs2' & Hid2 & _).
  rewrite Hs1 in Hs1'. injection Hs1' as <-.
  rewrite Hs2 in Hs2'. injection Hs2' as <-.
  rewrite Hid1, Hid2, Htx, Hout. reflexivity.
Qed.

End ExpanderResults.

Section TemplateScripts.
Context `{LibauthImports}.

(** C7. For every test definition, [vmbTestDefinitionToVmbTests] compiles
    with the compiler created from the configuration that
    [authenticationTemplateToCompilerConfiguration] makes of one template,
    and the scripts of that template define the nine built-in scripts
    ([lockEmptyP2sh20], [lockP2pkh], [lockP2sh20], [lockStandard],
    [unlockEmptyP2sh20], [unlockP2pkh], [unlockP2sh20], [unlockStandard],
    [vmbTestNullData]) with the values written in the source, whatever the
    definition's [additionalScripts] hold, also under these names:
    [lockP2sh20] and [lockStandard] hold the definition's
    [redeemOrLockingScript], [unlockP2sh20] and [unlockStandard] its
    [unlockingScript]. *)
Theorem builtIn_scripts_always_defined (testDefinition : VmbTestDefinition) :
  let template := vmbTestTemplate testDefinition in
  let configuration := authenticationTemplateToCompilerConfiguration template in
  let s := scripts template in
  let unlockingScript := def_unlockingScript testDefinition in
  let redeemOrLockingScript := def_redeemOrLockingScript testDefinition in
  testCompiler testDefinition = createCompilerBCH configuration
  ∧ (∀ groupName shortIdLength,
       vmbTestDefinitionToVmbTests testDefinition groupName shortIdLength
       = match planTestsBCH (def_testSetOverrideLabels testDefinition) with
         | OwnProperty plan =>
             mapM
               (generateTest (createCompilerBCH configuration)
                  (default EmptyString groupName)
                  (def_testDescription testDefinition)
                  unlockingScript redeemOrLockingScript
                  (default defaultShortIdLength shortIdLength))
               plan
         | _ => Throw TypeError
         end)
  ∧ (builtInScripts unlockingScript redeemOrLockingScript).*1 = builtInScriptNames
  ∧ Forall (λ entry : string * AuthenticationTemplateScript,
              s !! entry.1 = Some entry.2)
      (builtInScripts unlockingScript redeemOrLockingScript)
  ∧ s !! "lockP2sh20"
    = Some {| lockingType := Some "p2sh20"; script := redeemOrLockingScript;
              unlocks := None |}
  ∧ s !! "lockStandard"
    = Some {| lockingType := Some "standard"; script := redeemOrLockingScript;
              unlocks := None |}
  ∧ s !! "unlockP2sh20"
    = Some {| lockingType := None; script := unlockingScript;
              unlocks := Some "lockP2sh20" |}
  ∧ s !! "unlockStandard"
    = Some {| lockingType := None; script := unlockingScript;
              unlocks := Some "lockStandard" |}
  ∧ (∀ additionalScripts name script,
       def_additionalScripts testDefinition = Some additionalScripts →
       additionalScripts !! name = Some script →
       name ∈ builtInScriptNames →
       s !! name
       = obj_get (builtInScripts unlockingScript redeemOrLockingScript) name).
Proof.
  intros template configuration s unlockingScript redeemOrLockingScript.
  subst template configuration s unlockingScript redeemOrLockingScript.
  split; [reflexivity|]. split.
  { intros groupName shortIdLength. unfold vmbTestDefinitionToVmbTests.
    by destruct (planTestsBCH (def_testSetOverrideLabels testDefinition)). }
  unfold vmbTestTemplate, spreadThenAssign, builtInScripts; simpl.
  split; [reflexivity|].
  split; [repeat (apply Forall_cons_2; [by simplify_map_eq|]); apply Forall_nil_2|].
  do 4 (split; [by simplify_map_eq|]).
  intros additionalScripts name script _ _ Hname.
  unfold builtInScriptNames in Hname.
  rewrite !elem_of_cons, elem_of_nil in Hname.
  repeat (destruct Hname as [-> | Hname]; [by simplify_map_eq|]). done.
Qed.

End TemplateScripts.

Section ResolverAndSlots.
Context `{LibauthImports}.

(** C8 (amended). The resolver returns a plan exactly on the label lists
    whose comma-join is a key of the table. For any other label list
    [planTestsBCH] returns no plan: it returns [undefined], unless the join
    is the name of a property that every object inherits from
    [Object.prototype] (such as [constructor]), and then it returns that
    inherited value. In either case [vmbTestDefinitionToVmbTests] called on
    a definition with such labels throws a [TypeError] instead of returning
    test vectors. *)
Theorem unsupported_labels_fail (labels : option (list string)) :
  ((∃ plan, planTestsBCH labels = OwnProperty plan)
   ↔ join "," (default [] labels) ∈ supportedTestSetOverridesBCH_entries.*1)
  ∧ (join "," (default [] labels) ∉ supportedTestSetOverridesBCH_entries.*1 →
     (planTestsBCH labels = NoProperty
      ↔ join "," (default [] labels) ∉ Object_prototype_properties)
     ∧ (planTestsBCH labels = InheritedProperty (join "," (default [] labels))
        ↔ join "," (default [] labels) ∈ Object_prototype_properties)
     ∧ ∀ (testDefinition : VmbTestDefinition) groupName shortIdLength,
         def_testSetOverrideLabels testDefinition = labels →
         vmbTestDefinitionToVmbTests testDefinition groupName shortIdLength
         = Throw TypeError).
Proof.
  split.
  - split; [|apply planTestsBCH_key].
    intros [plan Hplan].
    destruct (decide (join "," (default [] labels)
                        ∈ supportedTestSetOverridesBCH_entries.*1))
      as [|Hnot]; [done|].
    by destruct (proj2 (planTestsBCH_None labels) Hnot plan).
  - intros Hkey. rewrite (planTestsBCH_not_key _ Hkey).
    split; [|split].
    + destruct (decide (join "," (default [] labels)
                          ∈ Object_prototype_properties)); split; done.
    + destruct (decide (join "," (default [] labels)
                          ∈ Object_prototype_properties)); split; done.
    + intros testDefinition groupName shortIdLength Hlabels.
      unfold vmbTestDefinitionToVmbTests.
      rewrite Hlabels, (planTestsBCH_not_key _ Hkey).
      by destruct (decide (join "," (default [] labels)
                             ∈ Object_prototype_properties)).
Qed.

(** C9. In every test vector that [vmbTestDefinitionToVmbTests] returns, the
    [inputIndex] slot is left out exactly when the [inputIndex] of the
    generated scenario's program is 0 (the tuple then has seven elements);
    otherwise it is that [inputIndex], the eighth and last element of the
    tuple. Every entry the partitioner files under a set id is a master
    entry without its [testSets] slot: it has a trailing [inputIndex]
    exactly when the master entry has one, with the same value. *)
Theorem inputIndex_slot :
  (∀ (testDefinition : VmbTestDefinition) groupName shortIdLength tests,
     vmbTestDefinitionToVmbTests testDefinition groupName shortIdLength
     = Normal tests →
     ∃ plan,
       planTestsBCH (def_testSetOverrideLabels testDefinition) = OwnProperty plan
       ∧ Forall2
           (λ planItem t,
              ∃ scenario,
                generateScenario (testCompiler testDefinition)
                  (scenarioRequest planItem)
                = GenerationResult (inr scenario)
                ∧ (inputIndex t = None
                   ↔ program_inputIndex (program scenario) = 0%Z)
                ∧ (program_inputIndex (program scenario) = 0%Z →
                   length (VmbTestMasterBCH_tuple t) = 7)
                ∧ (program_inputIndex (program scenario) ≠ 0%Z →
                   inputIndex t = Some (program_inputIndex (program scenario))
                   ∧ length (VmbTestMasterBCH_tuple t) = 8
                   ∧ last (VmbTestMasterBCH_tuple t)
                     = Some (JNumber (program_inputIndex (program scenario)))))
           plan tests)
  ∧ (∀ master S tests t,
       obj_get (vmbTestPartitionMasterTestList master) S = Some tests →
       t ∈ tests →
       ∃ m, m ∈ master ∧ S ∈ testSets m ∧ t = withoutSets m
            ∧ test_inputIndex t = inputIndex m
            ∧ VmbTest_tuple t = delete 6 (VmbTestMasterBCH_tuple m)).
Proof.
  split.
  - intros testDefinition groupName shortIdLength tests Hrun.
    apply vmbTestDefinitionToVmbTests_Normal in Hrun as (plan & Hplan & Hall).
    exists plan. split; [exact Hplan|].
    eapply Forall2_impl; [exact Hall|].
    intros planItem t (scenario & Hscenario & _ & _ & _ & _ & _ & _ & _ & Hi).
    exists scenario. split; [exact Hscenario|].
    unfold VmbTestMasterBCH_tuple. rewrite Hi.
    destruct (decide (program_inputIndex (program scenario) = 0%Z)) as [Hzero|Hnonzero].
    + repeat split; try done.
    + repeat split; try done.
  - intros master S tests t Hget Ht.
    rewrite partition_get in Hget.
    assert (Htests : tests = copiesInSet S master).
    { destruct (copiesInSet S master); simpl in Hget; congruence. }
    subst tests. apply elem_of_copiesInSet in Ht as (m & Hm & HS & ->).
    exists m. repeat split; try done.
    + unfold withoutSets; simpl. by destruct (inputIndex m).
    + apply withoutSets_tuple.
Qed.

Lemma generateTest_withGenerateScenario
    (g : Compiler → GenerateScenarioParameters → ScenarioGenerationResult)
    compiler groupName description unlockingScript redeemOrLockingScript
    shortIdLength planItem :
  g compiler (scenarioRequest planItem)
  = generateScenario compiler (scenarioRequest planItem) →
  @generateTest _ (withGenerateScenario g) compiler groupName description
    unlockingScript redeemOrLockingScript shortIdLength planItem
  = generateTest compiler groupName description unlockingScript
      redeemOrLockingScript shortIdLength planItem.
Proof.
  intros Hg. unfold generateTest, withGenerateScenario.
  cbn [generateScenario encodeTransaction encodeTransactionOutputs sha256_hash
       regroupBits encodeBech32 binToHex].
  rewrite Hg. reflexivity.
Qed.

(** C10. Every plan of the static table uses only the modes nonP2SH and
    P2SH20. The script id [unlockP2sh32] is the one chosen for mode P2SH32
    and for no other mode, and it is not among the built-in scripts of the
    test template. So, whatever the labels, no item of the resolved plan
    asks [compiler.generateScenario] for [unlockP2sh32], and the result of
    [vmbTestDefinitionToVmbTests] does not depend on what
    [compiler.generateScenario] would answer to such a request. *)
Theorem unlockP2sh32_never_requested :
  Forall (λ entry : string * TestPlan,
            Forall (λ planItem,
                      mode planItem = nonP2SH ∨ mode planItem = P2SH20)
              entry.2)
    supportedTestSetOverridesBCH_entries
  ∧ map_Forall
      (λ _ plan, Forall (λ planItem, mode planItem ≠ P2SH32) plan)
      supportedTestSetOverridesBCH
  ∧ (∀ m, unlockingScriptIdOfMode m = "unlockP2sh32" ↔ m = P2SH32)
  ∧ (∀ unlockingScript redeemOrLockingScript,
       "unlockP2sh32"
         ∉ (builtInScripts unlockingScript redeemOrLockingScript).*1)
  ∧ (∀ labels,
       Forall (λ planItem,
                 unlockingScriptId (scenarioRequest planItem) ≠ "unlockP2sh32")
         (match planTestsBCH labels with
          | OwnProperty plan => plan
          | _ => []
          end))
  ∧ (∀ (g : Compiler → GenerateScenarioParameters → ScenarioGenerationResult)
       (testDefinition : VmbTestDefinition) groupName shortIdLength,
       (∀ compiler request,
          unlockingScriptId request ≠ "unlockP2sh32" →
          g compiler request = generateScenario compiler request) →
       @vmbTestDefinitionToVmbTests _ (withGenerateScenario g)
         testDefinition groupName shortIdLength
       = vmbTestDefinitionToVmbTests testDefinition groupName shortIdLength).
Proof.
  assert (Hplan : ∀ labels plan,
            planTestsBCH labels = OwnProperty plan →
            Forall (λ planItem,
                      mode planItem = nonP2SH ∨ mode planItem = P2SH20) plan).
  { intros labels plan Hsome. apply planTestsBCH_Some_entry in Hsome.
    pose proof table_modes as Htable. rewrite Forall_forall in Htable.
    exact (Htable _ Hsome). }
  assert (Hid : ∀ m, unlockingScriptIdOfMode m = "unlockP2sh32" ↔ m = P2SH32).
  { intros []; simpl; split; intros Heq; done. }
  assert (Hrequest : ∀ labels,
            Forall (λ planItem,
                      unlockingScriptId (scenarioRequest planItem)
                      ≠ "unlockP2sh32")
              (match planTestsBCH labels with
               | OwnProperty plan => plan
               | _ => []
               end)).
  { intros labels.
    destruct (planTestsBCH labels) as [plan|name|] eqn:Hsome; simpl;
      [|apply Forall_nil_2..].
    eapply Forall_impl; [exact (Hplan _ _ Hsome)|].
    intros planItem Hmode. simpl. rewrite Hid.
    destruct Hmode as [-> | ->]; done. }
  split; [exact table_modes|]. split.
  { intros key plan Hlookup.
    assert (Hsome : planTestsBCH (Some [key]) = OwnProperty plan).
    { apply planTestsBCH_own. unfold join; simpl. exact Hlookup. }
    eapply Forall_impl; [exact (Hplan _ _ Hsome)|].
    intros planItem [-> | ->]; done. }
  split; [exact Hid|]. split.
  { intros unlockingScript redeemOrLockingScript. simpl.
    rewrite !not_elem_of_cons. repeat split; try done. apply not_elem_of_nil. }
  split; [exact Hrequest|].
  intros g testDefinition groupName shortIdLength Hagree.
  unfold vmbTestDefinitionToVmbTests.
  pose proof (Hrequest (def_testSetOverrideLabels testDefinition)) as Hreq.
  destruct (planTestsBCH (def_testSetOverrideLabels testDefinition))
    as [plan|name|]; [|reflexivity..].
  simpl in Hreq. induction Hreq as [|planItem plan Hitem _ IH]; [reflexivity|].
  cbn [mapM]. rewrite IH.
  rewrite generateTest_withGenerateScenario
    by exact (Hagree _ (scenarioRequest planItem) Hitem).
  reflexivity.
Qed.

End ResolverAndSlots.

(** * Concrete runs *)

Example sample_slice_negative :
  String_slice "qpzry9x8" 0 (-3) = "qpzry".
Proof. reflexivity. Qed.

Example sample_generator_run :
  filesWritten
    (effects
       (@generateVmbTests Sample.node [[[Sample.master]]]
          ["node"; "script.js"; "out"]))
  = [ ("/abs/out/bch_vmb_tests.json", "array");
      ("/abs/out/bch_vmb_tests_2021_invalid.json", "array");
      ("/abs/out/bch_vmb_tests_2022_invalid.json", "array") ].
Proof. vm_compute. reflexivity. Qed.

Example sample_generator_run_disk :
  (@generateVmbTestsScript Sample.node [[[Sample.master]]]
     ["node"; "script.js"; "out"] (@fileSystem Sample.node)).1
  = Sample.MkDisk ["/abs/out"]
      [ ("/abs/out/bch_vmb_tests.json", "array");
        ("/abs/out/bch_vmb_tests_2021_invalid.json", "array");
        ("/abs/out/bch_vmb_tests_2022_invalid.json", "array") ].
Proof. vm_compute. reflexivity. Qed.

Example sample_generator_run_without_CHIPs :
  @generateVmbTests Sample.node [[[Sample.chipMaster]]]
    ["node"; "script.js"; "out"]
  = MkRun
      [ ConsoleLog "Generating vmb_tests...";
        ConsoleLog "Generated vmb_tests. Writing files...";
        WriteFileSync "/abs/out/bch_vmb_tests.json" "array" "utf8";
        WriteFileSync "/abs/out/bch_vmb_tests_2022_invalid.json" "array" "utf8" ]
      (Throw
         (Error
            ("ENOENT: no such file or directory, open "
             +:+ "/abs/out/CHIPs/bch_vmb_tests_chip_loops_nonstandard.json"))).
Proof. vm_compute. reflexivity. Qed.

Example sample_generator_run_with_CHIPs :
  @generateVmbTests (Sample.nodeOn ["/abs/out"; "/abs/out/CHIPs"])
    [[[Sample.chipMaster]]] ["node"; "script.js"; "out"]
  = MkRun
      [ ConsoleLog "Generating vmb_tests...";
        ConsoleLog "Generated vmb_tests. Writing files...";
        WriteFileSync "/abs/out/bch_vmb_tests.json" "array" "utf8";
        WriteFileSync "/abs/out/bch_vmb_tests_2022_invalid.json" "array" "utf8";
        WriteFileSync "/abs/out/CHIPs/bch_vmb_tests_chip_loops_nonstandard.json"
          "array" "utf8";
        ConsoleLog "vmb_test files written." ]
      (Normal tt).
Proof. vm_compute. reflexivity. Qed.

(** C5, as first stated, fails where the output directory does not exist:
    the script creates no directory, its first [writeFileSync] call throws,
    and the run ends there with no file written, neither the master file
    nor the file of a set. *)
Lemma generator_missing_directory :
  @generateVmbTests Sample.nodeWithoutDirectory [[[Sample.master]]]
    ["node"; "script.js"; "out"]
  = MkRun
      [ ConsoleLog "Generating vmb_tests...";
        ConsoleLog "Generated vmb_tests. Writing files..." ]
      (Throw
         (Error
            ("ENOENT: no such file or directory, open "
             +:+ "/abs/out/bch_vmb_tests.json")))
  ∧ vmbTestPartitionMasterTestList (concat (concat [[[Sample.master]]])) ≠ []
  ∧ filesWritten
      (effects
         (@generateVmbTests Sample.nodeWithoutDirectory [[[Sample.master]]]
            ["node"; "script.js"; "out"]))
    = []
  ∧ filesWritten
      (effects
         (@generateVmbTests Sample.nodeWithoutDirectory [[[Sample.master]]]
            ["node"; "script.js"; "out"]))
    ≠ (@resolve Sample.nodeWithoutDirectory "out" +:+ "/bch_vmb_tests.json",
       @JSON_stringify Sample.nodeWithoutDirectory
         (masterListJson (concat (concat [[[Sample.master]]]))))
      :: ((λ entry : TestSetIdBCH * list VmbTest,
             (testSetFilepath (@resolve Sample.nodeWithoutDirectory "out")
                (TestSetIdBCH_str entry.1),
              @JSON_stringify Sample.nodeWithoutDirectory (testSetJson entry.2)))
          <$> vmbTestPartitionMasterTestList
                (concat (concat [[[Sample.master]]]))).
Proof.
  split; [vm_compute; reflexivity|].
  split; [vm_compute; intros Heq; discriminate Heq|].
  split; [vm_compute; reflexivity|].
  vm_compute. intros Heq. discriminate Heq.
Qed.

(** C2, as first stated, fails on a master entry whose [testSets] repeats a
    set id: the partitioner files the entry under that id twice, while the
    list of the entries whose [testSets] contains the id holds it once. *)
Lemma partition_repeated_set_id :
  obj_get (vmbTestPartitionMasterTestList [Sample.repeatedMaster]) s2021_invalid
  = Some [withoutSets Sample.repeatedMaster; withoutSets Sample.repeatedMaster]
  ∧ withoutSets <$> filter (λ m, s2021_invalid ∈ testSets m) [Sample.repeatedMaster]
    = [withoutSets Sample.repeatedMaster]
  ∧ obj_get (vmbTestPartitionMasterTestList [Sample.repeatedMaster]) s2021_invalid
    ≠ Some (withoutSets
              <$> filter (λ m, s2021_invalid ∈ testSets m) [Sample.repeatedMaster]).
Proof.
  split; [vm_compute; reflexivity|].
  split; [vm_compute; reflexivity|].
  vm_compute. intros Heq. discriminate Heq.
Qed.

Lemma partition_by_test_set_witness :
  Forall (λ m, NoDup (testSets m)) [Sample.master]
  ∧ copiesInSet s2021_invalid [Sample.master]
    = withoutSets <$> filter (λ m, s2021_invalid ∈ testSets m) [Sample.master].
Proof.
  assert (Hnd : Forall (λ m, NoDup (testSets m)) [Sample.master]).
  { apply Forall_cons_2; [|apply Forall_nil_2].
    apply (bool_decide_unpack _). vm_compute. exact I. }
  split; [exact Hnd|].
  exact (proj1 (proj2 (proj2 (partition_by_test_set [Sample.master] s2021_invalid)))
           Hnd).
Defined.

Lemma one_vector_per_plan_item_witness :
  ∃ plan tests,
    planTestsBCH (def_testSetOverrideLabels Sample.definition) = OwnProperty plan
    ∧ @vmbTestDefinitionToVmbTests _ Sample.imports Sample.definition
        (Some "group") None
      = Normal tests
    ∧ length tests = length plan
    ∧ Forall2
        (λ planItem t,
           testSets t = sets planItem
           ∧ testDescription t
             = "group" +:+ ": " +:+ "drop" +:+ " ("
                 +:+ TestMode_str (mode planItem) +:+ ")"
           ∧ String_includes (testDescription t)
               ("(" +:+ TestMode_str (mode planItem) +:+ ")") = true)
        plan tests.
Proof.
  apply (@one_vector_per_plan_item _ Sample.imports Sample.definition
           (Some "group") None).
  - apply (bool_decide_unpack _). vm_compute. exact I.
  - intros plan planItem _ _. eexists. reflexivity.
Defined.

Lemma shortId_is_hash_prefix_witness :
  defaultShortIdLength = 5%Z
  ∧ ∃ plan,
      planTestsBCH (def_testSetOverrideLabels Sample.definition) = OwnProperty plan
      ∧ Forall2
          (λ planItem t,
             ∃ scenario,
               @generateScenario _ Sample.imports
                 (@testCompiler _ Sample.imports Sample.definition)
                 (scenarioRequest planItem)
               = GenerationResult (inr scenario)
               ∧ shortId t
                 = String.substring 0 (Z.to_nat 5)
                     (@encodeBech32 _ Sample.imports
                        (@regroupBits _ Sample.imports
                           {| bin :=
                                @sha256_hash _ Sample.imports
                                  (@encodeTransaction _ Sample.imports
                                     (transaction (program scenario))
                                   ++ @encodeTransactionOutputs _ Sample.imports
                                        (sourceOutputs (program scenario)));
                              resultWordLength := 5;
                              sourceWordLength := 8 |})))
          plan [Sample.master].
Proof.
  apply (@shortId_is_hash_prefix _ Sample.imports Sample.definition
           (Some "group") None [Sample.master]).
  - vm_compute. discriminate.
  - vm_compute. reflexivity.
Defined.

Lemma shortId_depends_on_encodings_witness :
  shortId Sample.master = shortId Sample.master2.
Proof.
  apply (@shortId_depends_on_encodings _ Sample.imports
           Sample.definition Sample.definition2 (Some "group") (Some "other")
           None
           [PlanItem nonP2SH [s2021_invalid; s2022_invalid]] defaultTestPlan
           [Sample.master] Sample.tests2 0 1
           (PlanItem nonP2SH [s2021_invalid; s2022_invalid])
           (PlanItem P2SH20 [s2021_standard; s2022_standard])
           (Sample.scenarioFor 0) (Sample.scenarioFor 1));
    vm_compute; reflexivity.
Defined.

(** C8, as first stated, fails on the labels [['constructor']]: their join
    is no key of the table, yet [planTestsBCH] does not return [undefined]
    but the [constructor] that the table inherits from [Object.prototype]. *)
Lemma constructor_is_not_undefined :
  (join "," ["constructor"] ∉ supportedTestSetOverridesBCH_entries.*1)
  ∧ planTestsBCH (Some ["constructor"]) = InheritedProperty "constructor"
  ∧ planTestsBCH (Some ["constructor"]) ≠ NoProperty.
Proof.
  split; [apply (bool_decide_unpack _); vm_compute; exact I|].
  split; [vm_compute; reflexivity|].
  vm_compute. intros Heq. discriminate Heq.
Qed.

Lemma unsupported_labels_fail_witness :
  planTestsBCH (Some ["standard"]) = NoProperty
  ∧ @vmbTestDefinitionToVmbTests _ Sample.imports Sample.unsupportedDefinition
      None None
    = Throw TypeError.
Proof.
  destruct (proj2 (@unsupported_labels_fail _ Sample.imports (Some ["standard"])))
    as (Hundefined & _ & Hthrows).
  - apply (bool_decide_unpack _). vm_compute. exact I.
  - split.
    + apply Hundefined. apply (bool_decide_unpack _). vm_compute. exact I.
    + apply (Hthrows Sample.unsupportedDefinition None None). reflexivity.
Defined.

Lemma inputIndex_slot_witness :
  (∃ plan,
     planTestsBCH (def_testSetOverrideLabels Sample.definition2) = OwnProperty plan
     ∧ Forall2
         (λ planItem t,
            ∃ scenario,
              @generateScenario _ Sample.imports
                (@testCompiler _ Sample.imports Sample.definition2)
                (scenarioRequest planItem)
              = GenerationResult (inr scenario)
              ∧ (inputIndex t = None
                 ↔ program_inputIndex (program scenario) = 0%Z)
              ∧ (program_inputIndex (program scenario) = 0%Z →
                 length (VmbTestMasterBCH_tuple t) = 7)
              ∧ (program_inputIndex (program scenario) ≠ 0%Z →
                 inputIndex t = Some (program_inputIndex (program scenario))
                 ∧ length (VmbTestMasterBCH_tuple t) = 8
                 ∧ last (VmbTestMasterBCH_tuple t)
                   = Some (JNumber (program_inputIndex (program scenario)))))
         plan Sample.tests2)
  ∧ ∃ m, m ∈ [Sample.master2] ∧ s2021_standard ∈ testSets m
         ∧ withoutSets Sample.master2 = withoutSets m
         ∧ test_inputIndex (withoutSets Sample.master2) = inputIndex m
         ∧ VmbTest_tuple (withoutSets Sample.master2)
           = delete 6 (VmbTestMasterBCH_tuple m).
Proof.
  destruct (@inputIndex_slot _ Sample.imports) as [Hgenerated Hpartitioned].
  split.
  - apply (Hgenerated Sample.definition2 (Some "other") None Sample.tests2).
    vm_compute. reflexivity.
  - apply (Hpartitioned [Sample.master2] s2021_standard
             [withoutSets Sample.master2] (withoutSets Sample.master2)).
    + vm_compute. reflexivity.
    + apply list_elem_of_here.
Defined.

Lemma unlockP2sh32_never_requested_witness :
  @vmbTestDefinitionToVmbTests _
    (@withGenerateScenario _ Sample.imports Sample.strictGenerateScenario)
    Sample.definition2 (Some "other") None
  = @vmbTestDefinitionToVmbTests _ Sample.imports
      Sample.definition2 (Some "other") None.
Proof.
  apply (proj2 (proj2 (proj2 (proj2 (proj2
           (@unlockP2sh32_never_requested _ Sample.imports)))))).
  intros compiler request Hid. unfold Sample.strictGenerateScenario.
  destruct (String.eqb_spec (unlockingScriptId request) "unlockP2sh32")
    as [Heq|Hne]; [contradiction | reflexivity].
Defined.

(** * Further properties *)

(** ** Helper facts *)

Lemma append_inj_l a x y : a +:+ x = a +:+ y → x = y.
Proof.
  induction a as [|c a IH]; simpl; [done|].
  intros [= Heq]. by apply IH.
Qed.

Lemma length_substring_0 k s :
  String.length (String.substring 0 k s) = Nat.min k (String.length s).
Proof.
  revert k. induction s as [|c s IH]; intros [|k]; simpl; try reflexivity.
  by rewrite IH.
Qed.

Lemma prefix_substring_0 k s : String.prefix (String.substring 0 k s) s = true.
Proof.
  revert k. induction s as [|c s IH]; intros [|k]; simpl; try reflexivity.
  destruct (Ascii.ascii_dec c c); [apply IH | done].
Qed.

Lemma String_slice_0 s n :
  String_slice s 0 n
  = String.substring 0
      (Z.to_nat
         (if (n <? 0)%Z
          then Z.max (Z.of_nat (String.length s) + n) 0
          else Z.min n (Z.of_nat (String.length s))))
      s.
Proof.
  unfold String_slice.
  replace (0 <? 0)%Z with false by reflexivity.
  replace (Z.to_nat (Z.min 0 (Z.of_nat (String.length s)))) with 0%nat by lia.
  f_equal. destruct (n <? 0)%Z; lia.
Qed.

Lemma mapM_Throw_iff {A B : Type} (f : A → Completion B) l e :
  mapM f l = Throw e ↔
  ∃ ok x rest,
    l = ok ++ x :: rest
    ∧ Forall (λ y, ∃ b, f y = Normal b) ok
    ∧ f x = Throw e.
Proof.
  induction l as [|y l IH]; simpl.
  - split; [done|]. intros (ok & x & rest & Hl & _). by destruct ok.
  - unfold mbind, Completion_bind at 1. destruct (f y) as [b|e'] eqn:Hfy.
    + unfold mbind, Completion_bind, mret, Completion_ret.
      destruct (mapM f l) as [k|e''] eqn:Hrest.
      * split; [done|].
        intros (ok & x & rest & Hl & Hok & Hx).
        destruct ok as [|y' ok]; simpl in Hl; injection Hl as -> ->.
        -- congruence.
        -- apply Forall_cons in Hok as [_ Hok].
           assert (Hthrow : Normal k = Throw e); [|done].
           apply IH. eauto 6.
      * split.
        -- intros [= ->]. destruct (proj1 IH eq_refl) as (ok & x & rest & -> & Hok & Hx).
           exists (y :: ok), x, rest. split; [done|]. split; [|done].
           apply Forall_cons_2; eauto.
        -- intros (ok & x & rest & Hl & Hok & Hx).
           destruct ok as [|y' ok]; simpl in Hl; injection Hl as -> ->.
           ++ congruence.
           ++ apply Forall_cons in Hok as [_ Hok]. apply IH. eauto 6.
    + split.
      * intros [= ->]. exists [], y, l. by repeat split.
      * intros (ok & x & rest & Hl & Hok & Hx).
        destruct ok as [|y' ok]; simpl in Hl; injection Hl as -> ->.
        -- congruence.
        -- apply Forall_cons in Hok as [[b Hb] _]. congruence.
Qed.

Lemma table_shape :
  Forall (λ entry : string * TestPlan, wellShapedPlan entry.2)
    supportedTestSetOverridesBCH_entries.
Proof.
  unfold supportedTestSetOverridesBCH_entries.
  repeat (apply Forall_cons_2;
          [first [ left; eexists; split; [reflexivity|]; by eexists _, _
                 | right; eexists _, _; split; [reflexivity|];
                   split; by eexists _, _ ]|]).
  apply Forall_nil_2.
Qed.

Lemma planTestsBCH_shape labels plan :
  planTestsBCH labels = OwnProperty plan → wellShapedPlan plan.
Proof.
  intros Hsome. apply planTestsBCH_Some_entry in Hsome.
  pose proof table_shape as Htable. rewrite Forall_forall in Htable.
  exact (Htable _ Hsome).
Qed.

Lemma wellShapedSets_NoDup l : wellShapedSets l → NoDup l.
Proof.
  intros (a & b & ->). apply NoDup_cons. split.
  - rewrite list_elem_of_singleton. done.
  - apply NoDup_singleton.
Qed.

Lemma wellShapedPlan_sets plan :
  wellShapedPlan plan → Forall (λ planItem, wellShapedSets (sets planItem)) plan.
Proof.
  intros [(s1 & -> & H1) | (s1 & s2 & -> & H1 & H2)];
    repeat (apply Forall_cons_2; [done|]); apply Forall_nil_2.
Qed.

(** ** The resolver, further *)

(** X1. Whatever the labels, a resolved plan is a nonP2SH item, alone or
    followed by one P2SH20 item, and the sets of each item are a 2021 set
    followed by a 2022 set. *)
Theorem resolved_plan_shape (labels : option (list string)) :
  match planTestsBCH labels with
  | InheritedProperty _ => True
  | NoProperty => True
  | OwnProperty plan =>
      wellShapedPlan plan
      ∧ (1 ≤ length plan ≤ 2)%nat
      ∧ mode <$> plan `prefix_of` [nonP2SH; P2SH20]
      ∧ Forall (λ planItem,
                  ∃ a b, sets planItem = [TestSetId v2021 a; TestSetId v2022 b])
          plan
  end.
Proof.
  destruct (planTestsBCH labels) as [plan|name|] eqn:Hsome; [|done..].
  pose proof (planTestsBCH_shape _ _ Hsome) as Hshape.
  split; [exact Hshape|].
  split; [|split; [|exact (wellShapedPlan_sets _ Hshape)]].
  - destruct Hshape as [(s1 & -> & _) | (s1 & s2 & -> & _)]; simpl; lia.
  - destruct Hshape as [(s1 & -> & _) | (s1 & s2 & -> & _)]; simpl.
    + by exists [P2SH20].
    + by exists [].
Qed.

(** ** The expander, further *)

Lemma Forall2_common_left {A B C : Type} (R : A → B → Prop) (R' : A → C → Prop)
    l k1 k2 :
  Forall2 R l k1 → Forall2 R' l k2 →
  Forall2 (λ y1 y2, ∃ x, x ∈ l ∧ R x y1 ∧ R' x y2) k1 k2.
Proof.
  intros H1. revert k2. induction H1 as [|x y1 l k1 Hxy _ IH]; intros k2 H2.
  - apply Forall2_nil_inv_l in H2 as ->. constructor.
  - apply Forall2_cons_inv_l in H2 as (y2 & k2' & Hxy2 & H2 & ->).
    constructor.
    + exists x. split; [apply list_elem_of_here | done].
    + eapply Forall2_impl; [exact (IH _ H2)|].
      intros y1' y2' (x' & Hin & ?). exists x'.
      split; [by apply list_elem_of_further | done].
Qed.

Section ExpanderFurther.
Context `{LibauthImports}.

Lemma generateTest_succeeds compiler g d u r n planItem :
  (∃ t, generateTest compiler g d u r n planItem = Normal t)
  ↔ generationSucceeds compiler planItem.
Proof.
  unfold generationSucceeds. split.
  - intros [t Ht]. apply generateTest_Normal in Ht as (scenario & Hs & _). eauto.
  - intros [scenario Hs]. unfold generateTest. rewrite Hs. eauto.
Qed.

Lemma generateTest_Throw compiler g d u r n planItem e :
  generateTest compiler g d u r n planItem = Throw e ↔
  ∃ message,
    generationFails compiler planItem message
    ∧ e = errorWhileGenerating
            (g +:+ ": " +:+ d +:+ " (" +:+ TestMode_str (mode planItem) +:+ ")")
            message.
Proof.
  unfold generateTest, generationFails.
  destruct (generateScenario compiler (scenarioRequest planItem))
    as [message|[message|scenario]]; simpl.
  - split.
    + intros [= <-]. eauto.
    + intros (m & Hfails & ->). destruct Hfails as [Hm|Hm]; [|discriminate Hm].
      injection Hm as ->. reflexivity.
  - split.
    + intros [= <-]. eauto.
    + intros (m & Hfails & ->). destruct Hfails as [Hm|Hm]; [discriminate Hm|].
      injection Hm as ->. reflexivity.
  - split; [done|].
    intros (m & Hfails & _). destruct Hfails as [Hm|Hm]; discriminate Hm.
Qed.

Lemma generated_testSets testDefinition groupName shortIdLength tests :
  vmbTestDefinitionToVmbTests testDefinition groupName shortIdLength
  = Normal tests →
  (1 ≤ length tests ≤ 2)%nat
  ∧ Forall (λ t, wellShapedSets (testSets t)) tests.
Proof.
  intros Hrun.
  apply vmbTestDefinitionToVmbTests_Normal in Hrun as (plan & Hplan & Hall).
  pose proof (planTestsBCH_shape _ _ Hplan) as Hshape.
  split.
  - rewrite <- (Forall2_length _ _ _ Hall).
    destruct Hshape as [(s1 & -> & _) | (s1 & s2 & -> & _)]; simpl; lia.
  - apply wellShapedPlan_sets in Hshape. clear Hplan.
    induction Hall as [|planItem t plan tests (scenario & _ & Hgen) _ IH].
    + constructor.
    + apply Forall_cons in Hshape as [Hitem Hshape].
      constructor; [|by apply IH].
      destruct Hgen as (_ & _ & _ & _ & _ & _ & -> & _). exact Hitem.
Qed.

(** X3. [vmbTestDefinitionToVmbTests] returns test vectors exactly when the
    labels of the definition resolve to a plan and the scenario of every
    item of that plan is generated. *)
Theorem expander_returns_iff (testDefinition : VmbTestDefinition)
    (groupName : option string) (shortIdLength : option Z) :
  (∃ tests,
     vmbTestDefinitionToVmbTests testDefinition groupName shortIdLength
     = Normal tests)
  ↔ ∃ plan,
      planTestsBCH (def_testSetOverrideLabels testDefinition) = OwnProperty plan
      ∧ Forall (generationSucceeds (testCompiler testDefinition)) plan.
Proof.
  unfold vmbTestDefinitionToVmbTests.
  destruct (planTestsBCH (def_testSetOverrideLabels testDefinition))
    as [plan|name|].
  - split.
    + intros [tests Hrun]. exists plan. split; [done|].
      apply mapM_Normal_Forall2 in Hrun. apply Forall_forall. intros planItem Hin.
      apply list_elem_of_lookup in Hin as [i Hi].
      destruct (Forall2_lookup_l _ _ _ _ _ Hrun Hi) as (t & _ & Ht).
      eapply (proj1 (generateTest_succeeds _ _ _ _ _ _ _)). eauto.
    + intros (plan' & [= <-] & Hall). apply mapM_Normal_total.
      eapply Forall_impl; [exact Hall|].
      intros planItem Hs. by apply generateTest_succeeds.
  - split; [intros [? [=]] | intros (? & [=] & _)].
  - split; [intros [? [=]] | intros (? & [=] & _)].
Qed.

(** X4. [vmbTestDefinitionToVmbTests] throws in two ways only: a [TypeError]
    when the labels resolve to no plan, or, at the first plan item whose
    scenario is refused (all items before it being generated), an [Error]
    whose message quotes the description of that item and the compiler's
    message, whatever the items after it would give. *)
Theorem expander_throws_iff (testDefinition : VmbTestDefinition)
    (groupName : option string) (shortIdLength : option Z) (e : Thrown) :
  vmbTestDefinitionToVmbTests testDefinition groupName shortIdLength = Throw e
  ↔ ((∀ plan,
        planTestsBCH (def_testSetOverrideLabels testDefinition)
        ≠ OwnProperty plan)
     ∧ e = TypeError)
    ∨ ∃ generated refused rest message,
        planTestsBCH (def_testSetOverrideLabels testDefinition)
        = OwnProperty (generated ++ refused :: rest)
        ∧ Forall (generationSucceeds (testCompiler testDefinition)) generated
        ∧ generationFails (testCompiler testDefinition) refused message
        ∧ e = errorWhileGenerating
                (descriptionOf groupName testDefinition refused) message.
Proof.
  unfold vmbTestDefinitionToVmbTests, descriptionOf.
  destruct (planTestsBCH (def_testSetOverrideLabels testDefinition))
    as [plan|name|].
  - rewrite mapM_Throw_iff. split.
    + intros (ok & x & rest & -> & Hok & Hx). right.
      apply generateTest_Throw in Hx as (message & Hfails & ->).
      exists ok, x, rest, message. repeat split; try done.
      eapply Forall_impl; [exact Hok|].
      intros planItem Hs. by apply generateTest_succeeds in Hs.
    + intros [[Hno _] | (ok & x & rest & message & [= ->] & Hok & Hfails & ->)];
        [by destruct (Hno plan)|].
      exists ok, x, rest. repeat split.
      * eapply Forall_impl; [exact Hok|].
        intros planItem Hs. by apply generateTest_succeeds.
      * apply generateTest_Throw. eauto.
  - split.
    + intros [= <-]. by left.
    + intros [[_ ->] | (? & ? & ? & ? & [=] & _)]. reflexivity.
  - split.
    + intros [= <-]. by left.
    + intros [[_ ->] | (? & ? & ? & ? & [=] & _)]. reflexivity.
Qed.

(** X5. For every integer [shortIdLength], the [shortId] of a generated
    vector is a prefix of the bech32 encoding it is cut from; its length is
    the smaller of [shortIdLength] and the length of the encoding when
    [shortIdLength] is not negative, and the length of the encoding less
    the absolute value of [shortIdLength] (or 0) when it is negative. *)
Theorem shortId_prefix_any_length (testDefinition : VmbTestDefinition)
    (groupName : option string) (shortIdLength : option Z)
    (tests : list VmbTestMasterBCH) :
  vmbTestDefinitionToVmbTests testDefinition groupName shortIdLength
  = Normal tests →
  ∃ plan,
    planTestsBCH (def_testSetOverrideLabels testDefinition) = OwnProperty plan
    ∧ Forall2
        (λ planItem t,
           ∃ scenario,
             generateScenario (testCompiler testDefinition)
               (scenarioRequest planItem)
             = GenerationResult (inr scenario)
             ∧ String.prefix (shortId t) (hashEncoding scenario) = true
             ∧ Z.of_nat (String.length (shortId t))
               = let n := default defaultShortIdLength shortIdLength in
                 let len := Z.of_nat (String.length (hashEncoding scenario)) in
                 if (n <? 0)%Z then Z.max (len + n) 0 else Z.min n len)
        plan tests.
Proof.
  intros Hrun.
  apply vmbTestDefinitionToVmbTests_Normal in Hrun as (plan & Hplan & Hall).
  exists plan. split; [exact Hplan|].
  eapply Forall2_impl; [exact Hall|].
  intros planItem t (scenario & Hscenario & Hid & _).
  exists scenario. split; [exact Hscenario|].
  fold (hashEncoding scenario) in Hid. rewrite Hid, String_slice_0.
  split; [apply prefix_substring_0|].
  rewrite length_substring_0. cbv zeta.
  destruct (Z.ltb_spec (default defaultShortIdLength shortIdLength) 0); lia.
Qed.

(** X6. A definition yields one or two test vectors, and the [testSets] of
    each is a 2021 set followed by a 2022 set: two distinct ids, none of a
    draft proposal. *)
Theorem generated_vectors_shape (testDefinition : VmbTestDefinition)
    (groupName : option string) (shortIdLength : option Z)
    (tests : list VmbTestMasterBCH) :
  vmbTestDefinitionToVmbTests testDefinition groupName shortIdLength
  = Normal tests →
  (1 ≤ length tests ≤ 2)%nat
  ∧ Forall
      (λ t,
         (∃ a b, testSets t = [TestSetId v2021 a; TestSetId v2022 b])
         ∧ NoDup (testSets t)
         ∧ Forall (λ S, String_includes (TestSetIdBCH_str S) "chip" = false)
             (testSets t))
      tests.
Proof.
  intros Hrun. destruct (generated_testSets _ _ _ _ Hrun) as [Hlen Hsets].
  split; [exact Hlen|].
  eapply Forall_impl; [exact Hsets|].
  intros t Hshape. split; [exact Hshape|].
  split; [by apply wellShapedSets_NoDup|].
  destruct Hshape as (a & b & ->).
  repeat (apply Forall_cons_2; [destruct a, b; reflexivity|]).
  apply Forall_nil_2.
Qed.

(** X7. The descriptions of the vectors of one definition are pairwise
    distinct: they differ in the mode they end with. *)
Theorem generated_descriptions_distinct (testDefinition : VmbTestDefinition)
    (groupName : option string) (shortIdLength : option Z)
    (tests : list VmbTestMasterBCH) :
  vmbTestDefinitionToVmbTests testDefinition groupName shortIdLength
  = Normal tests →
  NoDup (testDescription <$> tests).
Proof.
  intros Hrun.
  apply vmbTestDefinitionToVmbTests_Normal in Hrun as (plan & Hplan & Hall).
  assert (Hdesc : testDescription <$> tests
                  = descriptionOf groupName testDefinition <$> plan).
  { clear Hplan. induction Hall as [|planItem t plan tests (s & _ & Hgen) _ IH].
    - reflexivity.
    - rewrite !fmap_cons, IH. f_equal.
      destruct Hgen as (_ & -> & _). reflexivity. }
  rewrite Hdesc.
  assert (Hne : descriptionOf groupName testDefinition (PlanItem nonP2SH [])
                ≠ descriptionOf groupName testDefinition (PlanItem P2SH20 [])).
  { unfold descriptionOf; simpl. intros Heq.
    do 3 apply append_inj_l in Heq. discriminate Heq. }
  destruct (planTestsBCH_shape _ _ Hplan)
    as [(s1 & -> & _) | (s1 & s2 & -> & _)]; simpl.
  - apply NoDup_singleton.
  - apply NoDup_cons. split; [|apply NoDup_singleton].
    rewrite list_elem_of_singleton. exact Hne.
Qed.

End ExpanderFurther.

Lemma elem_of_concat {A : Type} (x : A) (ls : list (list A)) :
  x ∈ concat ls ↔ ∃ l, l ∈ ls ∧ x ∈ l.
Proof.
  induction ls as [|l ls IH]; simpl.
  - split; [by intros ?%elem_of_nil | by intros (? & ?%elem_of_nil & _)].
  - rewrite elem_of_app, IH. split.
    + intros [Hx | (l' & Hl' & Hx)].
      * exists l. split; [apply list_elem_of_here | done].
      * exists l'. split; [by apply list_elem_of_further | done].
    + intros (l' & Hl' & Hx). apply elem_of_cons in Hl' as [-> | Hl'].
      * by left.
      * right. eauto.
Qed.

Section TemplateFurther.
Context `{LibauthImports}.

(** X8. The scripts of the test template are the nine built-in scripts and
    the definition's [additionalScripts]: a name is defined exactly when it
    is a built-in name or a name of [additionalScripts], and an additional
    script whose name is not a built-in name is kept as it is. *)
Theorem additional_scripts_kept (testDefinition : VmbTestDefinition)
    (name : string) :
  (is_Some (scripts (vmbTestTemplate testDefinition) !! name)
   ↔ name ∈ builtInScriptNames
     ∨ is_Some (default ∅ (def_additionalScripts testDefinition) !! name))
  ∧ (name ∉ builtInScriptNames →
     scripts (vmbTestTemplate testDefinition) !! name
     = default ∅ (def_additionalScripts testDefinition) !! name).
Proof.
  unfold vmbTestTemplate, spreadThenAssign, builtInScripts, builtInScriptNames.
  cbn [scripts foldl fst snd].
  set (base := default ∅ (def_additionalScripts testDefinition)).
  split.
  - rewrite !lookup_insert_is_Some, !elem_of_cons, elem_of_nil.
    split.
    + intros Hcases.
      repeat (destruct Hcases as [<- | [_ Hcases]]; [tauto|]). tauto.
    + intros [Hname | Hbase].
      * repeat (destruct Hname as [-> | Hname];
                [repeat (first [by left
                               | right; split; [done|]])|]).
        done.
      * destruct (decide (name ∈ builtInScriptNames)) as [Hin|Hnin].
        -- unfold builtInScriptNames in Hin.
           rewrite !elem_of_cons, elem_of_nil in Hin.
           repeat (destruct Hin as [-> | Hin];
                   [repeat (first [by left
                                  | right; split; [done|]])|]).
           done.
        -- unfold builtInScriptNames in Hnin.
           rewrite !not_elem_of_cons in Hnin.
           destruct Hnin as (?&?&?&?&?&?&?&?&?&_).
           repeat (right; split; [done|]). exact Hbase.
  - rewrite !not_elem_of_cons. intros (?&?&?&?&?&?&?&?&?&_).
    by rewrite !lookup_insert_ne by done.
Qed.

(** X9. Whatever scenario a definition brings, the test template has the
    two scenarios [test] and [vmb_default] and no other, and [vmb_default]
    is the imported [slot1Scenario]. The scenario [test] carries the fields
    of the definition's scenario and always has an [extends] property: the
    one of the definition's scenario when that has the property as its own
    (be its value a scenario name or [undefined]), and [vmb_default]
    otherwise, which the template always defines. Every request the
    expander makes of the compiler, for an item of the plan the resolver
    returns, names the scenario [test] and an unlocking script, both of
    which the template defines. *)
Theorem template_scenarios (testDefinition : VmbTestDefinition) :
  let template := vmbTestTemplate testDefinition in
  dom (scenarios template) = {[ "test"; "vmb_default" ]}
  ∧ scenarios template !! "vmb_default" = Some slot1Scenario
  ∧ scenarios template !! "test"
    = Some
        {| extends :=
             Some (default (Some "vmb_default")
                     (def_scenario testDefinition ≫= extends));
           scenarioFields :=
             default noScenarioFields
               (scenarioFields <$> def_scenario testDefinition) |}
  ∧ (def_scenario testDefinition ≫= extends = None →
     ∃ test, scenarios template !! "test" = Some test
             ∧ extends test = Some (Some "vmb_default")
             ∧ is_Some (scenarios template !! "vmb_default"))
  ∧ (def_scenario testDefinition ≫= extends = Some None →
     ∃ test, scenarios template !! "test" = Some test
             ∧ extends test = Some None)
  ∧ (∀ plan planItem,
       planTestsBCH (def_testSetOverrideLabels testDefinition)
       = OwnProperty plan →
       planItem ∈ plan →
       scenarioId (scenarioRequest planItem) = "test"
       ∧ is_Some (scenarios template !! scenarioId (scenarioRequest planItem))
       ∧ is_Some
           (scripts template !! unlockingScriptId (scenarioRequest planItem))).
Proof.
  cbv zeta.
  assert (Hrequests :
    ∀ plan planItem,
      planTestsBCH (def_testSetOverrideLabels testDefinition)
      = OwnProperty plan →
      planItem ∈ plan →
      scenarioId (scenarioRequest planItem) = "test"
      ∧ is_Some (scenarios (vmbTestTemplate testDefinition)
                   !! scenarioId (scenarioRequest planItem))
      ∧ is_Some (scripts (vmbTestTemplate testDefinition)
                   !! unlockingScriptId (scenarioRequest planItem))).
  { intros plan planItem Hplan Hitem.
    apply planTestsBCH_Some_entry in Hplan.
    pose proof table_modes as Hmodes. rewrite Forall_forall in Hmodes.
    specialize (Hmodes _ Hplan). cbn [snd] in Hmodes.
    rewrite Forall_forall in Hmodes. specialize (Hmodes _ Hitem).
    split; [reflexivity|]. split.
    - unfold vmbTestTemplate. cbn [scenarios scenarioId scenarioRequest].
      by simplify_map_eq.
    - unfold scenarioRequest. cbn [unlockingScriptId].
      destruct Hmodes as [-> | ->]; cbn [unlockingScriptIdOfMode];
        unfold vmbTestTemplate, spreadThenAssign, builtInScripts; simpl;
        simplify_map_eq; by eexists. }
  unfold vmbTestTemplate, spreadThenAssign.
  cbn [scenarios supported version entities foldl fst snd default].
  assert (Htest :
    (<["vmb_default" := slot1Scenario]>
       (<["test" := scenarioDefinition (def_scenario testDefinition)]> ∅)
     : gmap string AuthenticationTemplateScenario) !! "test"
    = Some
        {| extends :=
             Some (default (Some "vmb_default")
                     (def_scenario testDefinition ≫= extends));
           scenarioFields :=
             default noScenarioFields
               (scenarioFields <$> def_scenario testDefinition) |}).
  { rewrite lookup_insert_ne by done. rewrite lookup_insert_eq.
    unfold scenarioDefinition.
    destruct (def_scenario testDefinition) as [o|]; simpl; [|done].
    by destruct (extends o). }
  split; [|split; [|split; [exact Htest|split; [|split; [|exact Hrequests]]]]].
  - rewrite !dom_insert_L, dom_empty_L. set_solver.
  - by simplify_map_eq.
  - intros Hnone. eexists. split; [exact Htest|]. rewrite Hnone.
    split; [reflexivity|]. rewrite lookup_insert_eq. by eexists.
  - intros Hundefined. eexists. split; [exact Htest|]. by rewrite Hundefined.
Qed.

End TemplateFurther.

Lemma prefix_append_append a b c : String.prefix (a +:+ b) (a +:+ b +:+ c) = true.
Proof.
  induction a as [|x a IH]; simpl; [exact (prefix_append b c)|].
  destruct (Ascii.ascii_dec x x); [exact IH | done].
Qed.

Section GroupsAndIndependence.
Context `{LibauthImports}.

(** X10. The description of a definition and the group name only reach the
    descriptions of the vectors: two definitions that differ in nothing but
    their description, expanded under any two group names with the same
    [shortIdLength], both return, and their vectors agree pairwise on the
    short id, the two scripts, the transaction and source outputs, the test
    sets and the input index. *)
Theorem description_reaches_description_only
    (definition1 definition2 : VmbTestDefinition)
    (groupName1 groupName2 : option string) (shortIdLength : option Z)
    (tests1 : list VmbTestMasterBCH) :
  def_unlockingScript definition1 = def_unlockingScript definition2 →
  def_redeemOrLockingScript definition1 = def_redeemOrLockingScript definition2 →
  def_testSetOverrideLabels definition1 = def_testSetOverrideLabels definition2 →
  def_scenario definition1 = def_scenario definition2 →
  def_additionalScripts definition1 = def_additionalScripts definition2 →
  vmbTestDefinitionToVmbTests definition1 groupName1 shortIdLength
  = Normal tests1 →
  ∃ tests2,
    vmbTestDefinitionToVmbTests definition2 groupName2 shortIdLength
    = Normal tests2
    ∧ Forall2
        (λ t1 t2,
           shortId t1 = shortId t2
           ∧ unlockingScriptAsm t1 = unlockingScriptAsm t2
           ∧ redeemOrLockingScriptAsm t1 = redeemOrLockingScriptAsm t2
           ∧ testTransactionHex t1 = testTransactionHex t2
           ∧ sourceOutputsHex t1 = sourceOutputsHex t2
           ∧ testSets t1 = testSets t2
           ∧ inputIndex t1 = inputIndex t2)
        tests1 tests2.
Proof.
  intros Hu Hr Hl Hs Ha Hrun.
  assert (Hc : testCompiler definition1 = testCompiler definition2).
  { unfold testCompiler, vmbTestTemplate. by rewrite Hu, Hr, Hs, Ha. }
  apply vmbTestDefinitionToVmbTests_Normal in Hrun as (plan & Hplan & Hall1).
  assert (Hrun2 : ∃ tests2,
            vmbTestDefinitionToVmbTests definition2 groupName2 shortIdLength
            = Normal tests2).
  { unfold vmbTestDefinitionToVmbTests. rewrite <- Hl, Hplan.
    apply mapM_Normal_total, Forall_forall. intros planItem Hin.
    apply list_elem_of_lookup in Hin as [i Hi].
    destruct (Forall2_lookup_l _ _ _ _ _ Hall1 Hi) as (t & _ & s & Hgen & _).
    apply generateTest_succeeds. exists s. by rewrite <- Hc. }
  destruct Hrun2 as [tests2 Hrun2]. exists tests2. split; [exact Hrun2|].
  apply vmbTestDefinitionToVmbTests_Normal in Hrun2 as (plan2 & Hplan2 & Hall2).
  rewrite <- Hl, Hplan in Hplan2. injection Hplan2 as <-.
  eapply Forall2_impl; [exact (Forall2_common_left _ _ _ _ _ Hall1 Hall2)|].
  intros t1 t2 (planItem & _ & (s1 & Hs1 & Hg1) & (s2 & Hs2 & Hg2)).
  rewrite Hc, Hs2 in Hs1. injection Hs1 as <-.
  destruct Hg1 as (-> & _ & -> & -> & -> & -> & -> & ->).
  destruct Hg2 as (-> & _ & -> & -> & -> & -> & -> & ->).
  by rewrite Hu, Hr.
Qed.

(** X11. When [vmbTestGroupToVmbTests] returns, it returns one list per
    definition of the group, in order, each the result of
    [vmbTestDefinitionToVmbTests] on that definition with the group's
    description as group name and the default short id length: each list has
    one or two vectors, every description starts with the group's
    description followed by a colon and a space, and every short id has at
    most five characters. A group without definitions returns no list. *)
Theorem group_result_shape (testGroup : string * list VmbTestDefinition)
    (lists : list (list VmbTestMasterBCH)) :
  vmbTestGroupToVmbTests testGroup = Normal lists →
  vmbTestGroupToVmbTests (testGroup.1, []) = Normal []
  ∧ length lists = length testGroup.2
  ∧ Forall2
      (λ testDefinition tests,
         vmbTestDefinitionToVmbTests testDefinition (Some testGroup.1) None
         = Normal tests)
      testGroup.2 lists
  ∧ Forall
      (λ tests,
         (1 ≤ length tests ≤ 2)%nat
         ∧ Forall
             (λ t,
                String.prefix (testGroup.1 +:+ ": ") (testDescription t) = true
                ∧ (String.length (shortId t) ≤ 5)%nat)
             tests)
      lists.
Proof.
  intros Hrun. unfold vmbTestGroupToVmbTests in Hrun.
  apply mapM_Normal_Forall2 in Hrun.
  split; [reflexivity|]. split; [symmetry; exact (Forall2_length _ _ _ Hrun)|].
  split; [exact Hrun|].
  apply Forall_forall. intros tests Hin.
  apply list_elem_of_lookup in Hin as [i Hi].
  destruct (Forall2_lookup_r _ _ _ _ _ Hrun Hi) as (testDefinition & _ & Hdef).
  split; [exact (proj1 (generated_testSets _ _ _ _ Hdef))|].
  apply vmbTestDefinitionToVmbTests_Normal in Hdef as (plan & _ & Hall).
  apply Forall_forall. intros t Ht.
  apply list_elem_of_lookup in Ht as [j Hj].
  destruct (Forall2_lookup_r _ _ _ _ _ Hall Hj)
    as (planItem & _ & s & _ & Hid & Hd & _).
  rewrite Hid, Hd, String_slice_0, length_substring_0. simpl default.
  split; [apply prefix_append_append|].
  change (defaultShortIdLength <? 0)%Z with false. cbv iota.
  unfold defaultShortIdLength. lia.
Qed.

(** X12. [vmbTestGroupToVmbTests] throws exactly when one of the
    definitions of the group does, and it throws what the first such
    definition throws, whatever the definitions after it would give. *)
Theorem group_throws_iff (testGroup : string * list VmbTestDefinition)
    (e : Thrown) :
  vmbTestGroupToVmbTests testGroup = Throw e
  ↔ ∃ returning throwing rest,
      testGroup.2 = returning ++ throwing :: rest
      ∧ Forall
          (λ testDefinition,
             ∃ tests,
               vmbTestDefinitionToVmbTests testDefinition (Some testGroup.1) None
               = Normal tests)
          returning
      ∧ vmbTestDefinitionToVmbTests throwing (Some testGroup.1) None = Throw e.
Proof. unfold vmbTestGroupToVmbTests. apply mapM_Throw_iff. Qed.

Lemma vmbTestGroupToVmbTests_sets testGroup lists :
  vmbTestGroupToVmbTests testGroup = Normal lists →
  Forall (λ t, wellShapedSets (testSets t)) (concat lists).
Proof.
  intros Hrun. unfold vmbTestGroupToVmbTests in Hrun.
  apply mapM_Normal_Forall2 in Hrun.
  apply Forall_forall. intros t Ht.
  apply elem_of_concat in Ht as (tests & Htests & Ht).
  apply list_elem_of_lookup in Htests as [i Hi].
  destruct (Forall2_lookup_r _ _ _ _ _ Hrun Hi) as (testDefinition & _ & Hdef).
  destruct (generated_testSets _ _ _ _ Hdef) as [_ Hsets].
  rewrite Forall_forall in Hsets. by apply Hsets.
Qed.

Lemma masterTestListOfGroups_sets definitions master :
  masterTestListOfGroups definitions = Normal master →
  Forall (λ t, wellShapedSets (testSets t)) master.
Proof.
  unfold masterTestListOfGroups, mbind, Completion_bind, mret, Completion_ret.
  destruct (mapM vmbTestGroupToVmbTests definitions) as [nested|] eqn:Hrun;
    [|done].
  intros [= <-]. apply mapM_Normal_Forall2 in Hrun.
  apply Forall_forall. intros t Ht.
  apply elem_of_concat in Ht as (tests & Htests & Ht).
  apply elem_of_concat in Htests as (lists & Hlists & Htests).
  apply list_elem_of_lookup in Hlists as [i Hi].
  destruct (Forall2_lookup_r _ _ _ _ _ Hrun Hi) as (testGroup & _ & Hgroup).
  pose proof (vmbTestGroupToVmbTests_sets _ _ Hgroup) as Hsets.
  rewrite Forall_forall in Hsets. apply Hsets.
  apply elem_of_concat. eauto.
Qed.

End GroupsAndIndependence.

(** ** The partitioner, further *)

Section KeyOrder.
Context {A : Type} `{EqDecision A}.
Implicit Types l k : list A.

Lemma filter_not_elem_of_nil l : filter (λ x, x ∉ ([] : list A)) l = l.
Proof.
  induction l as [|x l IH]; [reflexivity|].
  rewrite filter_cons_True by apply not_elem_of_nil. by rewrite IH.
Qed.

Lemma elem_of_firstOccurrences l x : x ∈ firstOccurrences l ↔ x ∈ l.
Proof.
  induction l as [|y l IH]; simpl; [reflexivity|].
  rewrite !elem_of_cons, list_elem_of_filter, IH.
  destruct (decide (x = y)); tauto.
Qed.

Lemma firstOccurrences_NoDup l : NoDup (firstOccurrences l).
Proof.
  induction l as [|y l IH]; simpl; [apply NoDup_nil_2|].
  apply NoDup_cons. split.
  - rewrite list_elem_of_filter. tauto.
  - by apply NoDup_filter.
Qed.

Lemma firstOccurrences_app l k :
  firstOccurrences (l ++ k)
  = firstOccurrences l ++ filter (λ x, x ∉ l) (firstOccurrences k).
Proof.
  induction l as [|y l IH]; simpl.
  - by rewrite filter_not_elem_of_nil.
  - rewrite IH, filter_app, list_filter_filter. do 2 f_equal.
    apply list_filter_iff. intros x. rewrite not_elem_of_cons. tauto.
Qed.

End KeyOrder.

Lemma obj_set_keys {K V : Type} `{EqDecision K} (o : list (K * V)) k v :
  (obj_set o k v).*1 = if decide (k ∈ o.*1) then o.*1 else o.*1 ++ [k].
Proof.
  induction o as [|[k0 v0] o IH].
  - cbn [obj_set fmap list_fmap fst]. simpl app.
    destruct (decide (k ∈ [])) as [Hin|_]; [by apply elem_of_nil in Hin | done].
  - cbn [obj_set]. rewrite fmap_cons. cbn [fst].
    destruct (decide (k = k0)) as [->|Hne].
    + rewrite fmap_cons. cbn [fst].
      destruct (decide (k0 ∈ k0 :: o.*1)) as [_|Hnin]; [done|].
      exfalso. apply Hnin, list_elem_of_here.
    + rewrite fmap_cons, IH. cbn [fst].
      destruct (decide (k ∈ o.*1)) as [Hin|Hnin];
        destruct (decide (k ∈ k0 :: o.*1)) as [Hin'|Hnin']; try done.
      * exfalso. by apply Hnin', list_elem_of_further.
      * exfalso. apply elem_of_cons in Hin' as [?|?]; done.
Qed.

Lemma foldl_appendToSet_keys t sets acc :
  (foldl (appendToSet t) acc sets).*1
  = acc.*1 ++ filter (λ k, k ∉ acc.*1) (firstOccurrences sets).
Proof.
  revert acc. induction sets as [|k sets IH]; intros acc; simpl.
  - by rewrite app_nil_r.
  - rewrite IH. unfold appendToSet. rewrite (obj_set_keys acc k).
    destruct (decide (k ∈ acc.*1)) as [Hin|Hnin].
    + rewrite filter_cons_False by tauto. f_equal.
      rewrite list_filter_filter. apply list_filter_iff.
      intros x. split; [|tauto]. intros Hx. split; [done|]. congruence.
    + rewrite filter_cons_True by done. rewrite <- app_assoc. simpl. do 2 f_equal.
      rewrite list_filter_filter. apply list_filter_iff.
      intros x. rewrite not_elem_of_app, list_elem_of_singleton. tauto.
Qed.

Lemma foldl_partitionStep_keys master acc :
  (foldl partitionStep acc master).*1
  = acc.*1
    ++ filter (λ k, k ∉ acc.*1) (firstOccurrences (concat (testSets <$> master))).
Proof.
  revert acc. induction master as [|m master IH]; intros acc; simpl.
  - by rewrite app_nil_r.
  - rewrite IH. unfold partitionStep.
    rewrite (foldl_appendToSet_keys (withoutSets m) (testSets m) acc).
    rewrite firstOccurrences_app, filter_app, <- app_assoc. do 2 f_equal.
    rewrite list_filter_filter. apply list_filter_iff.
    intros x. rewrite not_elem_of_app, list_elem_of_filter, elem_of_firstOccurrences.
    tauto.
Qed.

Lemma foldl_partitionStep_keys_nil master :
  (vmbTestPartitionMasterTestList master).*1
  = firstOccurrences (concat (testSets <$> master)).
Proof.
  unfold vmbTestPartitionMasterTestList.
  rewrite foldl_partitionStep_keys. simpl. apply filter_not_elem_of_nil.
Qed.

Lemma filedTests_obj_set (o : list (TestSetIdBCH * list VmbTest)) k v :
  filedTests (obj_set o k v) + length (default [] (obj_get o k))
  = filedTests o + length v.
Proof.
  assert (Hcons : ∀ k' v' o',
             filedTests ((k', v') :: o') = length v' + filedTests o')
    by reflexivity.
  induction o as [|[k0 v0] o IH]; cbn [obj_set obj_get].
  - rewrite Hcons. change (filedTests []) with 0. simpl. lia.
  - destruct (decide (k = k0)) as [->|Hne]; rewrite !Hcons; simpl; lia.
Qed.

Lemma filedTests_foldl_appendToSet t sets acc :
  filedTests (foldl (appendToSet t) acc sets) = filedTests acc + length sets.
Proof.
  revert acc. induction sets as [|k sets IH]; intros acc; simpl; [lia|].
  rewrite IH. unfold appendToSet.
  pose proof (filedTests_obj_set acc k (default [] (obj_get acc k) ++ [t])) as Hset.
  rewrite length_app in Hset. simpl in Hset. lia.
Qed.

(** X13. The partitioner files every test once for each element of its
    [testSets]: the number of tests held by the partition, over all its
    sets, is the sum of the lengths of the [testSets] arrays of the master
    list. Nothing is filed for an empty master list. *)
Theorem partition_files_every_test (master : list VmbTestMasterBCH) :
  filedTests (vmbTestPartitionMasterTestList master)
  = sum_list ((λ m, length (testSets m)) <$> master)
  ∧ vmbTestPartitionMasterTestList [] = [].
Proof.
  split; [|reflexivity].
  unfold vmbTestPartitionMasterTestList.
  assert (Hgen : ∀ acc,
             filedTests (foldl partitionStep acc master)
             = filedTests acc + sum_list ((λ m, length (testSets m)) <$> master)).
  { induction master as [|m master IH]; intros acc.
    - change (filedTests acc = filedTests acc + 0). lia.
    - cbn [foldl]. rewrite IH. unfold partitionStep.
      rewrite filedTests_foldl_appendToSet, fmap_cons.
      change (sum_list (?x :: ?l)) with (x + sum_list l). lia. }
  by rewrite Hgen.
Qed.

(** X14. The properties of the partition, in the order [Object.entries]
    lists them, are the set ids of the master list in order of first
    occurrence (reading the [testSets] arrays entry after entry): each set
    id of the master list once, and no other. *)
Theorem partition_key_order (master : list VmbTestMasterBCH) :
  (vmbTestPartitionMasterTestList master).*1
  = firstOccurrences (concat (testSets <$> master))
  ∧ NoDup (vmbTestPartitionMasterTestList master).*1
  ∧ (∀ S, S ∈ (vmbTestPartitionMasterTestList master).*1
          ↔ Exists (λ m, S ∈ testSets m) master).
Proof.
  assert (Hkeys : (vmbTestPartitionMasterTestList master).*1
                  = firstOccurrences (concat (testSets <$> master))).
  { unfold vmbTestPartitionMasterTestList.
    rewrite foldl_partitionStep_keys. simpl. apply filter_not_elem_of_nil. }
  split; [exact Hkeys|]. rewrite Hkeys.
  split; [apply firstOccurrences_NoDup|].
  intros S. rewrite elem_of_firstOccurrences, elem_of_concat, Exists_exists.
  split.
  - intros (l & Hl & HS). apply list_elem_of_fmap in Hl as (m & -> & Hm). eauto.
  - intros (m & Hm & HS). exists (testSets m). split; [|done].
    apply list_elem_of_fmap. eauto.
Qed.

(** X15. Partitioning a master list extended at its end only extends the
    partition: it is the partition of the first part with the entries of the
    second part filed into it, so the sets of the first part keep their
    places, new sets follow them, and the list of each set is the list it
    had, followed by what the second part adds. *)
Theorem partition_append (master more : list VmbTestMasterBCH) :
  vmbTestPartitionMasterTestList (master ++ more)
  = foldl partitionStep (vmbTestPartitionMasterTestList master) more
  ∧ (vmbTestPartitionMasterTestList master).*1
    `prefix_of` (vmbTestPartitionMasterTestList (master ++ more)).*1
  ∧ (∀ S, copiesInSet S (master ++ more)
          = copiesInSet S master ++ copiesInSet S more)
  ∧ (∀ S, obj_get (vmbTestPartitionMasterTestList (master ++ more)) S
          = extendSet (obj_get (vmbTestPartitionMasterTestList master) S)
              (copiesInSet S more)).
Proof.
  assert (Happ : vmbTestPartitionMasterTestList (master ++ more)
                 = foldl partitionStep (vmbTestPartitionMasterTestList master) more).
  { unfold vmbTestPartitionMasterTestList. apply foldl_app. }
  split; [exact Happ|]. split; [|split].
  - rewrite Happ, foldl_partitionStep_keys. by eexists.
  - intros S. unfold copiesInSet. apply bind_app.
  - intros S. rewrite Happ. apply foldl_partitionStep_get.
Qed.

Lemma wellShapedSets_released l S :
  wellShapedSets l → S ∈ l → S ∈ releasedSetIds.
Proof.
  intros (a & b & ->) HS. unfold releasedSetIds.
  rewrite !elem_of_cons, elem_of_nil in HS. rewrite !elem_of_cons.
  destruct HS as [-> | [-> | []]]; [destruct a | destruct b]; tauto.
Qed.

Lemma partition_released_keys master :
  Forall (λ m, wellShapedSets (testSets m)) master →
  Forall (λ S, S ∈ releasedSetIds) (vmbTestPartitionMasterTestList master).*1
  ∧ (length (vmbTestPartitionMasterTestList master) ≤ 6)%nat.
Proof.
  intros Hshape.
  assert (Hkeys : ∀ S, S ∈ (vmbTestPartitionMasterTestList master).*1 →
                       S ∈ releasedSetIds).
  { intros S HS. destruct (obj_get (vmbTestPartitionMasterTestList master) S)
      as [tests|] eqn:Hget; [|by apply obj_get_None_keys in Hget].
    rewrite partition_get in Hget.
    destruct (copiesInSet S master) as [|t l] eqn:Hcopies; [done|].
    assert (Ht : t ∈ copiesInSet S master) by (rewrite Hcopies; apply list_elem_of_here).
    apply elem_of_copiesInSet in Ht as (m & Hm & HSm & _).
    rewrite Forall_forall in Hshape.
    exact (wellShapedSets_released _ _ (Hshape _ Hm) HSm). }
  split; [by apply Forall_forall|].
  rewrite <- (length_fmap fst).
  change 6 with (length releasedSetIds).
  apply submseteq_length, NoDup_submseteq; [apply partition_keys_NoDup | exact Hkeys].
Qed.

Section PartitionOfGenerated.
Context `{LibauthImports}.

(** X16. On a master list made by expanding groups of definitions
    ([definitions.map(vmbTestGroupToVmbTests).flat(2)]), the partitioner
    holds at each set id exactly the stripped entries whose [testSets]
    contains the id, in master order, each once; only sets of the 2021 and
    2022 versions occur, so the partition has at most six sets. *)
Theorem partition_of_generated
    (definitions : list (string * list VmbTestDefinition))
    (master : list VmbTestMasterBCH) (S : TestSetIdBCH) :
  masterTestListOfGroups definitions = Normal master →
  obj_get (vmbTestPartitionMasterTestList master) S
  = (if decide (Exists (λ m, S ∈ testSets m) master)
     then Some (withoutSets <$> filter (λ m, S ∈ testSets m) master)
     else None)
  ∧ (is_Some (obj_get (vmbTestPartitionMasterTestList master) S) →
     setVersion S = v2021 ∨ setVersion S = v2022)
  ∧ (length (vmbTestPartitionMasterTestList master) ≤ 6)%nat.
Proof.
  intros Hmaster. pose proof (masterTestListOfGroups_sets _ _ Hmaster) as Hshape.
  assert (Hnd : Forall (λ m, NoDup (testSets m)) master).
  { eapply Forall_impl; [exact Hshape|]. intros m. apply wellShapedSets_NoDup. }
  destruct (partition_released_keys _ Hshape) as [Hkeys Hlen].
  split; [|split; [|exact Hlen]].
  - rewrite partition_get, (copiesInSet_NoDup _ _ Hnd).
    destruct (decide (Exists (λ m, S ∈ testSets m) master)) as [Hex|Hnex].
    + destruct (withoutSets <$> filter (λ m, S ∈ testSets m) master)
        as [|t l] eqn:Hfiltered; [|reflexivity].
      exfalso. apply fmap_nil_inv in Hfiltered.
      apply Exists_exists in Hex as (m & Hm & HS).
      by apply (filter_nil_not_elem_of _ _ m Hfiltered HS).
    + assert (Hnil : filter (λ m, S ∈ testSets m) master = []).
      { apply elem_of_nil_inv. intros m [HS Hm]%list_elem_of_filter.
        apply Hnex, Exists_exists. eauto. }
      by rewrite Hnil.
  - intros Hsome.
    assert (HS : S ∈ (vmbTestPartitionMasterTestList master).*1).
    { destruct (decide (S ∈ (vmbTestPartitionMasterTestList master).*1))
        as [|Hnin]; [done|].
      apply obj_get_None_keys in Hnin. rewrite Hnin in Hsome.
      by destruct Hsome. }
    rewrite Forall_forall in Hkeys. specialize (Hkeys _ HS).
    unfold releasedSetIds in Hkeys. rewrite !elem_of_cons, elem_of_nil in Hkeys.
    destruct Hkeys as [-> | [-> | [-> | [-> | [-> | [-> | []]]]]]]; simpl; tauto.
Qed.

End PartitionOfGenerated.

(** ** The generator script, further *)

Lemma testSetFilepath_inj dir a b :
  testSetFilepath dir (TestSetIdBCH_str a) = testSetFilepath dir (TestSetIdBCH_str b)
  → a = b.
Proof.
  unfold testSetFilepath.
  destruct a as [[] []], b as [[] []]; vm_compute; intros Heq;
    first [reflexivity | apply append_inj_l in Heq; discriminate Heq].
Qed.

Lemma master_path_not_set_path dir S :
  dir +:+ "/bch_vmb_tests.json" ≠ testSetFilepath dir (TestSetIdBCH_str S).
Proof.
  unfold testSetFilepath.
  destruct S as [[] []]; vm_compute; intros Heq;
    apply append_inj_l in Heq; discriminate Heq.
Qed.

Section ScriptFurther.
Context `{NodeImports}.

Lemma plannedFiles_paths_NoDup outputDir allTestCases :
  NoDup (fst <$> plannedFiles outputDir allTestCases).
Proof.
  unfold plannedFiles. rewrite fmap_cons, <- list_fmap_compose.
  cbn [fst]. apply NoDup_cons. split.
  - rewrite list_elem_of_fmap. intros ([S tests] & Heq & _).
    by apply master_path_not_set_path in Heq.
  - apply NoDup_fmap_2_strong.
    + intros [S1 tests1] [S2 tests2] H1 H2 Heq. cbn in Heq.
      apply testSetFilepath_inj in Heq as ->. f_equal.
      apply elem_of_partition in H1, H2. congruence.
    + apply NoDup_fmap_1 with (f := fst), partition_keys_NoDup.
Qed.

Lemma plannedFiles_length outputDir allTestCases :
  length (plannedFiles outputDir allTestCases)
  = Datatypes.S (length (firstOccurrences (concat (testSets <$> allTestCases)))).
Proof.
  unfold plannedFiles. cbn [length]. f_equal.
  rewrite length_fmap, <- (length_fmap fst).
  f_equal. apply foldl_partitionStep_keys_nil.
Qed.

(** X17. No run of the script writes two files to the same path: the paths
    of the set files differ from each other and from the path of the master
    file, so no file overwrites another. *)
Theorem written_paths_distinct
    (vmbTestsBch : list (list (list VmbTestMasterBCH))) (argv : list string) :
  NoDup (fst <$> filesWritten (effects (generateVmbTests vmbTestsBch argv))).
Proof.
  destruct (argv !! 2%nat) as [outputDir|] eqn:Hdir.
  - destruct (generateVmbTests_written vmbTestsBch argv outputDir Hdir)
      as (later & Hfiles & _).
    pose proof (plannedFiles_paths_NoDup outputDir (concat (concat vmbTestsBch)))
      as Hnodup.
    rewrite Hfiles, fmap_app in Hnodup. by apply NoDup_app in Hnodup as [? _].
  - rewrite (generateVmbTests_no_directory _ _ Hdir). apply NoDup_nil_2.
Qed.

(** X18. The whole trace of a run. Without an output directory the script
    logs its first message and throws, and does nothing else. With one, it
    logs two messages and then calls [writeFileSync] on the master file and
    on the set files in the order of the partition, each with the [utf8]
    encoding, until a call throws: the calls before it returned, the script
    ends with what it threw, and neither a later file nor the last message
    follows. When no call throws, the script logs its last message and ends
    normally, having written one file more than there are distinct set ids.
    Only the third element of [process.argv] is read. *)
Theorem generator_trace
    (vmbTestsBch : list (list (list VmbTestMasterBCH))) (argv : list string) :
  let allTestCases := concat (concat vmbTestsBch) in
  let run := generateVmbTests vmbTestsBch argv in
  match argv !! 2%nat with
  | None =>
      run = MkRun [ConsoleLog "Generating vmb_tests..."]
              (Throw (Error "Script requires an output directory."))
  | Some outputDir =>
      let planned :=
        (resolve outputDir +:+ "/bch_vmb_tests.json",
         JSON_stringify (masterListJson allTestCases))
        :: ((λ entry : TestSetIdBCH * list VmbTest,
               (testSetFilepath (resolve outputDir) (TestSetIdBCH_str entry.1),
                JSON_stringify (testSetJson entry.2)))
            <$> vmbTestPartitionMasterTestList allTestCases) in
      (∃ written later,
         planned = written ++ later
         ∧ writesReturn fileSystem written
         ∧ run
           = MkRun
               ([ ConsoleLog "Generating vmb_tests...";
                  ConsoleLog "Generated vmb_tests. Writing files..." ]
                ++ ((λ file : string * string,
                       WriteFileSync file.1 file.2 "utf8") <$> written)
                ++ match later with
                   | [] => [ConsoleLog "vmb_test files written."]
                   | _ :: _ => []
                   end)
               (match later with
                | [] => Normal tt
                | file :: _ =>
                    (fs_writeFileSync (fileSystemAfter fileSystem written)
                       file.1 file.2 "utf8").2
                end)
         ∧ match later with
           | [] => True
           | file :: _ =>
               ∃ e, (fs_writeFileSync (fileSystemAfter fileSystem written)
                       file.1 file.2 "utf8").2
                    = Throw e
           end)
      ∧ (writesReturn fileSystem planned
         ↔ run
           = MkRun
               ([ ConsoleLog "Generating vmb_tests...";
                  ConsoleLog "Generated vmb_tests. Writing files...";
                  WriteFileSync (resolve outputDir +:+ "/bch_vmb_tests.json")
                    (JSON_stringify (masterListJson allTestCases)) "utf8" ]
                ++ ((λ entry : TestSetIdBCH * list VmbTest,
                       WriteFileSync
                         (testSetFilepath (resolve outputDir)
                            (TestSetIdBCH_str entry.1))
                         (JSON_stringify (testSetJson entry.2)) "utf8")
                    <$> vmbTestPartitionMasterTestList allTestCases)
                ++ [ConsoleLog "vmb_test files written."])
               (Normal tt))
      ∧ (completion run = Normal tt
         ↔ length (filesWritten (effects run))
           = Datatypes.S
               (length (firstOccurrences (concat (testSets <$> allTestCases)))))
  end
  ∧ Forall (λ e, match e with
                 | WriteFileSync _ _ encoding => encoding = "utf8"
                 | ConsoleLog _ => True
                 end)
      (effects run)
  ∧ (length (filesWritten (effects run))
     ≤ match argv !! 2%nat with
       | None => 0
       | Some _ =>
           Datatypes.S
             (length (firstOccurrences (concat (testSets <$> allTestCases))))
       end)%nat.
Proof.
  intros allTestCases run. subst run.
  destruct (argv !! 2%nat) as [outputDir|] eqn:Hdir.
  2:{ rewrite (generateVmbTests_no_directory _ _ Hdir). cbn [effects].
      split; [reflexivity|]. split; [by repeat constructor|]. cbn. lia. }
  cbv zeta.
  change ((resolve outputDir +:+ "/bch_vmb_tests.json",
           JSON_stringify (masterListJson allTestCases))
          :: ((λ entry : TestSetIdBCH * list VmbTest,
                 (testSetFilepath (resolve outputDir) (TestSetIdBCH_str entry.1),
                  JSON_stringify (testSetJson entry.2)))
              <$> vmbTestPartitionMasterTestList allTestCases))
    with (plannedFiles outputDir allTestCases).
  destruct (generateVmbTests_run vmbTestsBch argv outputDir Hdir)
    as (written & later & Hfiles & Heffects & Hreturn & Hend).
  fold allTestCases in Hfiles.
  assert (Hwritten : filesWritten (effects (generateVmbTests vmbTestsBch argv))
                     = written).
  { rewrite Heffects. apply filesWritten_trace.
    destruct later; by repeat constructor. }
  assert (Hlength : length (plannedFiles outputDir allTestCases)
                    = (length written + length later)%nat).
  { by rewrite Hfiles, length_app. }
  rewrite plannedFiles_length in Hlength.
  assert (Hrun : generateVmbTests vmbTestsBch argv
                 = MkRun (effects (generateVmbTests vmbTestsBch argv))
                     (completion (generateVmbTests vmbTestsBch argv))).
  { by destruct (generateVmbTests vmbTestsBch argv). }
  split; [split; [|split]|split].
  - exists written, later. split; [exact Hfiles|]. split; [exact Hreturn|].
    rewrite Hrun, Heffects. destruct later as [|file later].
    + by rewrite Hend.
    + destruct Hend as (e & -> & Hthrow). rewrite Hthrow. split; [done|].
      by exists e.
  - split.
    + intros Hplanned. destruct later as [|file later].
      * rewrite app_nil_r in Hfiles. subst written.
        rewrite Hrun, Heffects, Hend. f_equal. unfold plannedFiles.
        rewrite fmap_cons, <- list_fmap_compose. reflexivity.
      * destruct Hend as (e & _ & Hthrow).
        destruct file as [path data]. cbn [fst snd] in Hthrow.
        rewrite (Hplanned written path data later Hfiles) in Hthrow. done.
    + intros Heq. destruct later as [|file later].
      * rewrite app_nil_r in Hfiles. by rewrite Hfiles.
      * destruct Hend as (e & Hthrow & _). rewrite Heq in Hthrow. done.
  - rewrite Hwritten. destruct later as [|file later].
    + rewrite Hend. cbn [length] in Hlength. split; [lia | done].
    + destruct Hend as (e & -> & _). cbn [length] in Hlength.
      split; [done | lia].
  - rewrite Heffects. repeat (apply Forall_cons_2; [done|]).
    apply Forall_app. split.
    + apply Forall_fmap, Forall_forall. by intros [path data] _.
    + destruct later; by repeat constructor.
  - rewrite Hwritten. lia.
Qed.

End ScriptFurther.

Section ScriptOnGenerated.
Context `{LibauthImports} `{NodeImports}.

(** X19. Run on the tests of expanded groups
    ([groups.map(vmbTestGroupToVmbTests)]), the script writes at most seven
    files: the master file and one file per set of the 2021 and 2022
    versions that occurs, each directly under the output directory, none
    under its [CHIPs] subdirectory. *)
Theorem generator_on_generated_tests
    (groups : list (string * list VmbTestDefinition))
    (vmbTestsBch : list (list (list VmbTestMasterBCH)))
    (argv : list string) (outputDir : string) :
  mapM vmbTestGroupToVmbTests groups = Normal vmbTestsBch →
  argv !! 2%nat = Some outputDir →
  let files := filesWritten (effects (generateVmbTests vmbTestsBch argv)) in
  (length files ≤ 7)%nat
  ∧ Forall
      (λ file : string * string,
         file.1 = resolve outputDir +:+ "/bch_vmb_tests.json"
         ∨ ∃ S, S ∈ releasedSetIds
                ∧ file.1 = resolve outputDir +:+ "/bch_vmb_tests_"
                             +:+ TestSetIdBCH_str S +:+ ".json")
      files.
Proof.
  intros Hgroups Hdir files. subst files.
  assert (Hmaster : masterTestListOfGroups groups
                    = Normal (concat (concat vmbTestsBch))).
  { unfold masterTestListOfGroups. by rewrite Hgroups. }
  apply masterTestListOfGroups_sets, partition_released_keys in Hmaster
    as [Hkeys Hlen].
  destruct (generateVmbTests_written vmbTestsBch argv outputDir Hdir)
    as (later & Hfiles & _).
  assert (Hplanned :
            (length (plannedFiles outputDir (concat (concat vmbTestsBch))) ≤ 7)%nat
            ∧ Forall
                (λ file : string * string,
                   file.1 = resolve outputDir +:+ "/bch_vmb_tests.json"
                   ∨ ∃ S, S ∈ releasedSetIds
                          ∧ file.1 = resolve outputDir +:+ "/bch_vmb_tests_"
                                       +:+ TestSetIdBCH_str S +:+ ".json")
                (plannedFiles outputDir (concat (concat vmbTestsBch)))).
  2:{ rewrite Hfiles, length_app, Forall_app in Hplanned.
      destruct Hplanned as [Hle [Hall _]]. split; [lia | exact Hall]. }
  unfold plannedFiles. split.
  - cbn [length]. rewrite length_fmap. lia.
  - apply Forall_cons_2; [by left|].
    apply Forall_fmap, Forall_forall. intros [S tests] Hin. right.
    exists S. rewrite Forall_forall in Hkeys.
    assert (HS : S ∈ releasedSetIds).
    { apply Hkeys, list_elem_of_fmap. by exists (S, tests). }
    split; [exact HS|]. cbn. unfold testSetFilepath.
    unfold releasedSetIds in HS. rewrite !elem_of_cons, elem_of_nil in HS.
    destruct HS as [-> | [-> | [-> | [-> | [-> | [-> | []]]]]]]; reflexivity.
Qed.

End ScriptOnGenerated.

(** * Concrete runs of the further properties *)

Lemma shortId_prefix_any_length_witness :
  ∃ plan,
    planTestsBCH (def_testSetOverrideLabels Sample.definition) = OwnProperty plan
    ∧ Forall2
        (λ planItem t,
           ∃ scenario,
             @generateScenario _ Sample.imports
               (@testCompiler _ Sample.imports Sample.definition)
               (scenarioRequest planItem)
             = GenerationResult (inr scenario)
             ∧ String.prefix (shortId t)
                 (@hashEncoding _ Sample.imports scenario) = true
             ∧ Z.of_nat (String.length (shortId t))
               = let n := default defaultShortIdLength (Some (-3)%Z) in
                 let len :=
                   Z.of_nat
                     (String.length (@hashEncoding _ Sample.imports scenario)) in
                 if (n <? 0)%Z then Z.max (len + n) 0 else Z.min n len)
        plan [Sample.master].
Proof.
  apply (@shortId_prefix_any_length _ Sample.imports Sample.definition
           (Some "group") (Some (-3)%Z) [Sample.master]).
  vm_compute. reflexivity.
Defined.

Lemma generated_vectors_shape_witness :
  (1 ≤ length Sample.tests2 ≤ 2)%nat
  ∧ Forall
      (λ t,
         (∃ a b, testSets t = [TestSetId v2021 a; TestSetId v2022 b])
         ∧ NoDup (testSets t)
         ∧ Forall (λ S, String_includes (TestSetIdBCH_str S) "chip" = false)
             (testSets t))
      Sample.tests2.
Proof.
  apply (@generated_vectors_shape _ Sample.imports Sample.definition2
           (Some "other") None Sample.tests2).
  vm_compute. reflexivity.
Defined.

Lemma generated_descriptions_distinct_witness :
  NoDup (testDescription <$> Sample.tests2).
Proof.
  apply (@generated_descriptions_distinct _ Sample.imports Sample.definition2
           (Some "other") None Sample.tests2).
  vm_compute. reflexivity.
Defined.

Lemma additional_scripts_kept_witness :
  ("helper" ∉ builtInScriptNames)
  ∧ scripts (@vmbTestTemplate _ Sample.imports Sample.definitionWithScripts)
      !! "helper"
    = Some {| lockingType := None; script := "<2>"; unlocks := None |}.
Proof.
  assert (Hname : "helper" ∉ builtInScriptNames).
  { apply (bool_decide_unpack _). vm_compute. exact I. }
  split; [exact Hname|].
  rewrite (proj2 (@additional_scripts_kept _ Sample.imports
                    Sample.definitionWithScripts "helper") Hname).
  vm_compute. reflexivity.
Defined.

Lemma description_reaches_description_only_witness :
  ∃ tests2,
    @vmbTestDefinitionToVmbTests _ Sample.imports Sample.definitionRenamed
      (Some "other") None
    = Normal tests2
    ∧ Forall2
        (λ t1 t2,
           shortId t1 = shortId t2
           ∧ unlockingScriptAsm t1 = unlockingScriptAsm t2
           ∧ redeemOrLockingScriptAsm t1 = redeemOrLockingScriptAsm t2
           ∧ testTransactionHex t1 = testTransactionHex t2
           ∧ sourceOutputsHex t1 = sourceOutputsHex t2
           ∧ testSets t1 = testSets t2
           ∧ inputIndex t1 = inputIndex t2)
        [Sample.master] tests2.
Proof.
  apply (@description_reaches_description_only _ Sample.imports
           Sample.definition Sample.definitionRenamed
           (Some "group") (Some "other") None [Sample.master]);
    vm_compute; reflexivity.
Defined.

Lemma group_result_shape_witness :
  @vmbTestGroupToVmbTests _ Sample.imports ("group", []) = Normal []
  ∧ length [[Sample.master]] = length [Sample.definition]
  ∧ Forall2
      (λ testDefinition tests,
         @vmbTestDefinitionToVmbTests _ Sample.imports testDefinition
           (Some "group") None
         = Normal tests)
      [Sample.definition] [[Sample.master]]
  ∧ Forall
      (λ tests,
         (1 ≤ length tests ≤ 2)%nat
         ∧ Forall
             (λ t,
                String.prefix ("group" +:+ ": ") (testDescription t) = true
                ∧ (String.length (shortId t) ≤ 5)%nat)
             tests)
      [[Sample.master]].
Proof.
  apply (@group_result_shape _ Sample.imports ("group", [Sample.definition])
           [[Sample.master]]).
  vm_compute. reflexivity.
Defined.

Lemma partition_of_generated_witness :
  obj_get (vmbTestPartitionMasterTestList [Sample.master]) s2021_invalid
  = (if decide (Exists (λ m, s2021_invalid ∈ testSets m) [Sample.master])
     then Some (withoutSets
                  <$> filter (λ m, s2021_invalid ∈ testSets m) [Sample.master])
     else None)
  ∧ (is_Some (obj_get (vmbTestPartitionMasterTestList [Sample.master])
                s2021_invalid) →
     setVersion s2021_invalid = v2021 ∨ setVersion s2021_invalid = v2022)
  ∧ (length (vmbTestPartitionMasterTestList [Sample.master]) ≤ 6)%nat.
Proof.
  apply (@partition_of_generated _ Sample.imports
           [("group", [Sample.definition])] [Sample.master] s2021_invalid).
  vm_compute. reflexivity.
Defined.

Lemma generator_on_generated_tests_witness :
  let files :=
    filesWritten
      (effects
         (@generateVmbTests Sample.node [[[Sample.master]]]
            ["node"; "script.js"; "out"])) in
  (length files ≤ 7)%nat
  ∧ Forall
      (λ file : string * string,
         file.1 = @resolve Sample.node "out" +:+ "/bch_vmb_tests.json"
         ∨ ∃ S, S ∈ releasedSetIds
                ∧ file.1 = @resolve Sample.node "out" +:+ "/bch_vmb_tests_"
                             +:+ TestSetIdBCH_str S +:+ ".json")
      files.
Proof.
  apply (@generator_on_generated_tests _ Sample.imports Sample.node
           [("group", [Sample.definition])] [[[Sample.master]]]
           ["node"; "script.js"; "out"] "out").
  - vm_compute. reflexivity.
  - reflexivity.
Defined.
